(** * Goroutine identifier resolution (package [kit/runtime/goroutine])

    A shallow embedding of the two resolution paths of the package:

    - the slow path ([getGoIDSlow], [extractGID]), which asks the host
      runtime for a stack snapshot and parses the identifier out of its
      header;
    - the fast path ([GetGoID]), which on amd64 is a six-instruction
      assembly routine that loads a 64-bit word at [g + offset], with
      [offset] looked up in [offsetDict] at package initialisation, and on
      arm64 (except Windows) reads the [goid] field of a mirrored [g]
      struct;
    - the build constraints that decide which definition of [GetGoID] is
      compiled.

    Byte slices are lists of [Z] (each element a byte value), Go strings
    that serve as map keys are [string], 64-bit integers are [Z] with the
    wrap-around written out. *)

From stdpp Require Import gmap strings list pretty.
From Stdlib Require Import ZArith Lia Ascii.

Open Scope Z_scope.

(** ** The parts of the Go language and standard library the package uses *)

Module Go.

(** A Go call either returns or panics. *)
Inductive result (A : Type) : Type :=
| Ok (a : A)
| Panic.
Arguments Ok {A} a.
Arguments Panic {A}.

#[global] Instance result_ret : MRet result := fun A a => Ok a.
#[global] Instance result_bind : MBind result := fun A B k r =>
  match r with
  | Ok a => k a
  | Panic => Panic
  end.

(** [[]byte(s)] for a string literal. *)
Definition bytes_of_string (s : string) : list Z :=
  map (fun a => Z.of_N (Ascii.N_of_ascii a)) (String.list_ascii_of_string s).

(** [len(s)] as a Go [int]. *)
Definition len {A} (s : list A) : Z := Z.of_nat (length s).

(** [s[lo:]]: panics unless [0 <= lo <= len(s)]. *)
Definition slice_from {A} (s : list A) (lo : Z) : result (list A) :=
  if (0 <=? lo) && (lo <=? len s) then Ok (drop (Z.to_nat lo) s) else Panic.

(** [s[:hi]]: panics unless [0 <= hi <= cap(s)].  Every slice this
    package cuts with [[:hi]] has its capacity equal to its length or is
    cut within its length, so the bound is [len s]. *)
Definition slice_to {A} (s : list A) (hi : Z) : result (list A) :=
  if (0 <=? hi) && (hi <=? len s) then Ok (take (Z.to_nat hi) s) else Panic.

(** [bytes.IndexByte(s, c)]: index of the first [c] in [s], or [-1]. *)
Fixpoint IndexByte (s : list Z) (c : Z) : Z :=
  match s with
  | [] => -1
  | x :: s' =>
      if x =? c then 0
      else let i := IndexByte s' c in
           if i <? 0 then -1 else i + 1
  end.

(** *** [strconv] *)

Inductive num_error : Type := ErrSyntax | ErrRange.

Definition maxUint64 : Z := 2 ^ 64 - 1.

(** [lower(c) = c | ('x' - 'X')]. *)
Definition lower (c : Z) : Z := Z.lor c 32.

(** The digit loop of [strconv.ParseUint] for an explicit base in
    [2..36] (no underscores: they are accepted for base 0 only).  [n] is
    the [uint64] accumulator. *)
Fixpoint ParseUint_loop (base cutoff maxVal n : Z) (s : list Z)
  : Z * option num_error :=
  match s with
  | [] => (n, None)
  | c :: s' =>
      let d :=
        if (48 <=? c) && (c <=? 57) then Some (c - 48)
        else if (97 <=? lower c) && (lower c <=? 122)
             then Some (lower c - 97 + 10)
             else None in
      match d with
      | None => (0, Some ErrSyntax)
      | Some d =>
          if base <=? d then (0, Some ErrSyntax)
          else if cutoff <=? n then (maxVal, Some ErrRange)
          else
            let n' := (n * base) mod 2 ^ 64 in
            let n1 := (n' + d) mod 2 ^ 64 in
            if (n1 <? n') || (maxVal <? n1) then (maxVal, Some ErrRange)
            else ParseUint_loop base cutoff maxVal n1 s'
      end
  end.

Definition ParseUint (s : list Z) (base bitSize : Z) : Z * option num_error :=
  match s with
  | [] => (0, Some ErrSyntax)
  | _ => ParseUint_loop base (maxUint64 / base + 1) (2 ^ bitSize - 1) 0 s
  end.

(** [strconv.ParseInt(s, base, bitSize)] for an explicit base and bit
    size: the value and the error ([None] for [nil]). *)
Definition ParseInt (s : list Z) (base bitSize : Z) : Z * option num_error :=
  match s with
  | [] => (0, Some ErrSyntax)
  | c0 :: s' =>
      let '(neg, s1) :=
        if c0 =? 43 then (false, s')
        else if c0 =? 45 then (true, s')
        else (false, s) in
      let '(un, err) := ParseUint s1 base bitSize in
      match err with
      | Some ErrSyntax => (0, Some ErrSyntax)
      | _ =>
          let cutoff := 2 ^ (bitSize - 1) in
          if negb neg && (cutoff <=? un) then (cutoff - 1, Some ErrRange)
          else if neg && (cutoff <? un) then (- cutoff, Some ErrRange)
          else (if neg then - un else un, None)
      end
  end.

(** *** [strings] *)

(** [strings.Split(s, sep)] for a one-byte separator: the pieces between
    the occurrences of [sep]; always at least one piece.  The slice it
    returns has its capacity equal to its length. *)
Fixpoint Split (s : string) (sep : ascii) : list string :=
  match s with
  | EmptyString => [EmptyString]
  | String c s' =>
      if Ascii.eqb c sep then EmptyString :: Split s' sep
      else match Split s' sep with
           | p :: ps => String c p :: ps
           | [] => [String c EmptyString]
           end
  end.

(** [strings.Join(elems, sep)]. *)
Fixpoint Join (elems : list string) (sep : string) : string :=
  match elems with
  | [] => EmptyString
  | [e] => e
  | e :: es => (e ++ sep ++ Join es sep)%string
  end.

End Go.

Import Go.

(** ** The slow path: parsing the snapshot header *)

(** [len("goroutine ")] is folded by the compiler; here it is computed. *)
Definition label : list Z := bytes_of_string "goroutine ".

Definition extractGID (s : list Z) : result Z :=
  s ← slice_from s (len label);
  s ← slice_to s (IndexByte s 32);
  let '(gid, _) := ParseInt s 10 64 in
  mret gid.

(** ** The host runtime, as the package consumes it

    A [Host] is what the calling goroutine can observe of the runtime at
    one instant: the version string, the thread-local pointer to its own
    [g], the bytes of memory, and the text [runtime.Stack] would produce
    for an unbounded buffer ([all = false]: the calling goroutine only).
    The runtime keeps [tls_g] valid while the goroutine runs, so loads
    through it are total here. *)

Record Host : Type := {
  version : string;
  tls_g : Z;
  mem : Z -> Z;
  stack_text : bool -> list Z
}.

(** Calls into the runtime that the package makes are recorded, in order. *)
Inductive event : Type :=
| EvVersion
| EvStack (buflen : Z) (all : bool).

(** A computation of the package: it may panic, and it extends the record
    of runtime calls. *)
Definition M (A : Type) : Type := list event -> result A * list event.

#[global] Instance M_ret : MRet M := fun A a t => (Ok a, t).
#[global] Instance M_bind : MBind M := fun A B k m t =>
  match m t with
  | (Ok a, t') => k a t'
  | (Panic, t') => (Panic, t')
  end.

Definition lift {A} (r : result A) : M A := fun t => (r, t).

(** [runtime.Version()]. *)
Definition runtime_Version (h : Host) : M string :=
  fun t => (Ok (version h), t ++ [EvVersion]).

(** [runtime.Stack(buf, all)]: writes the text into [buf], truncating it to
    the buffer, and returns the number of bytes written.  The result is the
    buffer after the call and that number. *)
Definition runtime_Stack (h : Host) (buf : list Z) (all : bool) : M (list Z * Z) :=
  fun t =>
    let n := Nat.min (length (stack_text h all)) (length buf) in
    (Ok (take n (stack_text h all) ++ drop n buf, Z.of_nat n),
     t ++ [EvStack (len buf) all]).

Definition initialBufferSize : Z := 128.

Definition getGoIDSlow (h : Host) : M Z :=
  let buf := replicate (Z.to_nat initialBufferSize) 0 in
  let stackBytes := buf in
  '(buf, n) ← runtime_Stack h stackBytes false;
  stackBytes ← lift (slice_to buf n);
  lift (extractGID stackBytes).

Definition GetGoIDSlow (h : Host) : M Z := getGoIDSlow h.

(** ** The offset table (amd64) *)

Definition offsetDict : gmap string Z :=
  list_to_map
    [ ("go1.4", 128); ("go1.5", 184); ("go1.6", 192); ("go1.7", 192);
      ("go1.8", 192); ("go1.9", 152); ("go1.10", 152); ("go1.11", 152);
      ("go1.12", 152); ("go1.13", 152); ("go1.14", 152); ("go1.15", 152);
      ("go1.16", 152); ("go1.17", 152); ("go1.18", 152); ("go1.19", 152);
      ("go1.20", 152); ("go1.21", 152); ("go1.22", 152); ("go1.23", 160);
      ("go1.24", 160); ("go1.25", 152) ].

(** [strings.Join(strings.Split(v, ".")[:2], ".")]. *)
Definition version_key (v : string) : result string :=
  parts ← slice_to (Split v ".") 2;
  mret (Join parts ".").

(** The initialiser of the package variable [offset]; indexing a Go map
    with an absent key gives the zero value. *)
Definition offset_init (h : Host) : M Z :=
  v ← runtime_Version h;
  ver ← lift (version_key v);
  mret (default 0 (offsetDict !! ver)).

(** The package after initialisation, running on a host.  The variable
    [offset] exists on amd64 builds only; other builds never read it. *)
Record Process : Type := {
  host : Host;
  offset : Z
}.

Definition Offset (p : Process) : M Z := mret (offset p).

(** ** The fast path *)

Definition wrap64 (z : Z) : Z := z mod 2 ^ 64.

Definition signed64 (z : Z) : Z := if z <? 2 ^ 63 then z else z - 2 ^ 64.

(** An 8-byte little-endian load. *)
Definition load64 (m : Z -> Z) (a : Z) : Z :=
  foldr (fun i acc => m (wrap64 (a + i)) mod 256 + 256 * acc) 0 (seqZ 0 8).

(** The amd64 routine, one binding per instruction. *)
Definition GetGoID_amd64 (p : Process) : Z :=
  let AX := wrap64 (tls_g (host p)) in       (* get_tls(CX); MOVQ g(CX), AX *)
  let BX := wrap64 (offset p) in             (* MOVQ ·offset(SB), BX *)
  let DX := wrap64 (AX + BX) in              (* LEAQ 0(AX)(BX*1), DX *)
  let AX := load64 (mem (host p)) DX in      (* MOVQ (DX), AX *)
  signed64 AX.                               (* MOVQ AX, ret+0(FP); RET *)

(** [getg()] on arm64: the register that holds the current [g]. *)
Definition getg (h : Host) : Z := wrap64 (tls_g h).

(** [getg().goid], with [goid] at byte [off] of the declared [g]. *)
Definition GetGoID_arm64 (off : Z) (h : Host) : Z :=
  signed64 (load64 (mem h) (wrap64 (getg h + off))).

(** ** The mirrored runtime structures and their layout

    Sizes and alignments are those of the 64-bit targets, the only ones
    where the declarations are compiled (every file carries [arm64]). *)

#[warnings="-register-all"]
Inductive gotype : Type :=
| Tuintptr
| Tuint32
| Tint64
| Tslice (elem : gotype)
| Tstruct (fields : list (string * gotype)).

Fixpoint alignof (t : gotype) : Z :=
  match t with
  | Tuintptr => 8
  | Tuint32 => 4
  | Tint64 => 8
  | Tslice _ => 8
  | Tstruct fs => foldr (fun f a => Z.max (alignof (snd f)) a) 1 fs
  end.

Definition align_up (off a : Z) : Z := (off + a - 1) / a * a.

Fixpoint sizeof (t : gotype) : Z :=
  match t with
  | Tuintptr => 8
  | Tuint32 => 4
  | Tint64 => 8
  | Tslice _ => 24
  | Tstruct fs =>
      align_up
        (fold_left (fun off f => align_up off (alignof (snd f)) + sizeof (snd f)) fs 0)
        (alignof t)
  end.

(** The offset of each field of a struct whose fields are [fs], the first
    one placed at or after [off]. *)
Fixpoint field_offsets (off : Z) (fs : list (string * gotype)) : list (string * Z) :=
  match fs with
  | [] => []
  | (name, t) :: fs' =>
      let o := align_up off (alignof t) in
      (name, o) :: field_offsets (o + sizeof t) fs'
  end.

(** [unsafe.Offsetof(x.name)] for [x] of the struct type with fields [fs]. *)
Definition offsetof (fs : list (string * gotype)) (name : string) : option Z :=
  snd <$> find (fun f => String.eqb (fst f) name) (field_offsets 0 fs).

Definition stack : gotype :=
  Tstruct [("lo", Tuintptr); ("hi", Tuintptr)].

(** [gobuf] of [runtime_go1.25.go]. *)
Definition gobuf_go1_25 : gotype :=
  Tstruct [("sp", Tuintptr); ("pc", Tuintptr); ("g", Tuintptr);
           ("ctxt", Tuintptr); ("lr", Tuintptr); ("bp", Tuintptr)].

(** [g] of [runtime_go1.25.go]. *)
Definition g_go1_25 : list (string * gotype) :=
  [ ("stack", stack); ("stackguard0", Tuintptr); ("stackguard1", Tuintptr);
    ("_panic", Tuintptr); ("_defer", Tuintptr); ("m", Tuintptr);
    ("sched", gobuf_go1_25);
    ("syscallsp", Tuintptr); ("syscallpc", Tuintptr); ("syscallbp", Tuintptr);
    ("stktopsp", Tuintptr); ("param", Tuintptr);
    ("atomicstatus", Tuint32); ("stackLock", Tuint32);
    ("goid", Tint64) ].

(** [gobuf] of [runtime_go1.6.go]. *)
Definition gobuf_go1_6 : gotype :=
  Tstruct [("sp", Tuintptr); ("pc", Tuintptr); ("g", Tuintptr);
           ("ctxt", Tuintptr); ("ret", Tuintptr); ("lr", Tuintptr);
           ("bp", Tuintptr)].

(** [g] of [runtime_go1.6.go]. *)
Definition g_go1_6 : list (string * gotype) :=
  [ ("stack", stack); ("stackguard0", Tuintptr); ("stackguard1", Tuintptr);
    ("_panic", Tuintptr); ("_defer", Tuintptr); ("m", Tuintptr);
    ("stackAlloc", Tuintptr);
    ("sched", gobuf_go1_6);
    ("syscallsp", Tuintptr); ("syscallpc", Tuintptr);
    ("stkbar", Tslice Tuintptr); ("stkbarPos", Tuintptr);
    ("stktopsp", Tuintptr); ("param", Tuintptr);
    ("atomicstatus", Tuint32); ("stackLock", Tuint32);
    ("goid", Tint64) ].

(** [g] of the gccgo declaration. *)
Definition g_gccgo : list (string * gotype) :=
  [ ("_panic", Tuintptr); ("_defer", Tuintptr); ("m", Tuintptr);
    ("syscallsp", Tuintptr); ("syscallpc", Tuintptr); ("param", Tuintptr);
    ("atomicstatus", Tuint32);
    ("goid", Tint64) ].

(** ** Build constraints *)

Inductive OS : Type :=
| aix | android | darwin | dragonfly | freebsd | hurd | illumos | ios | js
| linux | nacl | netbsd | openbsd | plan9 | solaris | wasip1 | windows | zos.

Inductive Arch : Type :=
| i386 | amd64 | amd64p32 | arm | armbe | arm64 | arm64be | loong64 | mips
| mipsle | mips64 | mips64le | mips64p32 | mips64p32le | ppc | ppc64
| ppc64le | riscv | riscv64 | s390 | s390x | sparc | sparc64 | wasm.

Inductive Compiler : Type := gc | gccgo.

#[global] Instance OS_eq_dec : EqDecision OS.
Proof. solve_decision. Defined.
#[global] Instance Arch_eq_dec : EqDecision Arch.
Proof. solve_decision. Defined.
#[global] Instance Compiler_eq_dec : EqDecision Compiler.
Proof. solve_decision. Defined.

(** A build: the target pair, the compiler, and the toolchain release
    (Go 1.[go_minor]). *)
Record Build : Type := {
  GOOS : OS;
  GOARCH : Arch;
  compiler : Compiler;
  go_minor : nat
}.

(** The tags the package's constraints mention; [TagGo1 n] is [go1.n]. *)
Inductive tag : Type :=
| TagOS (o : OS)
| TagArch (a : Arch)
| TagCompiler (c : Compiler)
| TagGo1 (n : nat).

Inductive constraint : Type :=
| CTag (t : tag)
| CNot (c : constraint)
| CAnd (c1 c2 : constraint).

(** A release tag [go1.n] is set by every toolchain from Go 1.n on. *)
Definition tag_sat (b : Build) (t : tag) : bool :=
  match t with
  | TagOS o => bool_decide (GOOS b = o)
  | TagArch a => bool_decide (GOARCH b = a)
  | TagCompiler c => bool_decide (compiler b = c)
  | TagGo1 n => (n <=? go_minor b)%nat
  end.

Fixpoint sat (b : Build) (c : constraint) : bool :=
  match c with
  | CTag t => tag_sat b t
  | CNot c => negb (sat b c)
  | CAnd c1 c2 => sat b c1 && sat b c2
  end.

(** The bodies [GetGoID] has in the package. *)
Inductive body : Type :=
| BodyAsm      (* amd64: declared without a body, implemented in assembly *)
| BodyField    (* [return getg().goid] *)
| BodySlow.    (* [return getGoIDSlow()] *)

(** The files that define [GetGoID], each with its [//go:build] line. *)
Definition GetGoID_files : list (constraint * body) :=
  [ (CTag (TagArch amd64), BodyAsm);
    (CAnd (CNot (CTag (TagOS windows))) (CTag (TagArch arm64)), BodyField);
    (CAnd (CTag (TagOS windows)) (CTag (TagArch arm64)), BodySlow);
    (CAnd (CNot (CTag (TagArch arm64))) (CNot (CTag (TagArch amd64))), BodySlow) ].

(** [goid_offset.go]: [//go:build amd64]. *)
Definition goid_offset_go : constraint := CTag (TagArch amd64).

(** The declarations of [g] at hand, each with its [//go:build] line. *)
Definition g_files : list (constraint * list (string * gotype)) :=
  [ (CAnd (CAnd (CTag (TagCompiler gc)) (CTag (TagGo1 25))) (CTag (TagArch arm64)),
     g_go1_25);
    (CAnd (CAnd (CAnd (CTag (TagCompiler gc)) (CTag (TagGo1 6)))
                (CNot (CTag (TagGo1 9))))
          (CTag (TagArch arm64)),
     g_go1_6);
    (CAnd (CAnd (CAnd (CNot (CTag (TagCompiler gc))) (CTag (TagCompiler gccgo)))
                (CTag (TagGo1 8)))
          (CTag (TagArch arm64)),
     g_gccgo) ].

Definition selected {A} (b : Build) (files : list (constraint * A)) : list A :=
  snd <$> List.filter (fun f => sat b (fst f)) files.

(** What a build links for [GetGoID]. *)
Inductive program : Type :=
| FastAsm
| FastField (goid_off : Z)
| Slow.

(** What the build constraints of the package's files select for a build.
    [more] holds the declarations of [g] in files other than the three of
    [g_files] (the releases between them).  [None]: the files selected do
    not fit together ([GetGoID] or [g] is declared twice, or
    [getg().goid] has no [g] with a [goid] field to refer to).  [Some]
    says what [GetGoID] is when the toolchain builds the package; whether
    a toolchain exists for the target pair, or assembles the amd64
    routine, is not decided here. *)
Definition compile (more : list (constraint * list (string * gotype)))
    (b : Build) : option program :=
  match selected b (g_files ++ more) with
  | _ :: _ :: _ => None
  | gs =>
      match selected b GetGoID_files with
      | [BodyAsm] => Some FastAsm
      | [BodyField] =>
          match gs with
          | [g] => FastField <$> offsetof g "goid"
          | _ => None
          end
      | [BodySlow] => Some Slow
      | _ => None
      end
  end.

(** Package initialisation: the initialiser of [offset] runs where
    [goid_offset.go] is compiled. *)
Definition pkg_init (b : Build) (h : Host) : M Process :=
  if sat b goid_offset_go
  then off ← offset_init h; mret {| host := h; offset := off |}
  else mret {| host := h; offset := 0 |}.

Definition GetGoID (pr : program) (p : Process) : M Z :=
  match pr with
  | FastAsm => mret (GetGoID_amd64 p)
  | FastField off => mret (GetGoID_arm64 off (host p))
  | Slow => getGoIDSlow (host p)
  end.

(** A caller's use of the package after initialisation. *)
Inductive call : Type := CallGetGoID | CallGetGoIDSlow | CallOffset.

Definition do_call (pr : program) (p : Process) (c : call) : M Z :=
  match c with
  | CallGetGoID => GetGoID pr p
  | CallGetGoIDSlow => GetGoIDSlow (host p)
  | CallOffset => Offset p
  end.

Fixpoint run_calls (pr : program) (p : Process) (cs : list call) : M (list Z) :=
  match cs with
  | [] => mret []
  | c :: cs' =>
      x ← do_call pr p c;
      xs ← run_calls pr p cs';
      mret (x :: xs)
  end.

(** ** Notions the statements below use *)

Definition is_digit (c : Z) : Prop := 48 <= c <= 57.

(** The number a run of decimal digits denotes, continuing from [n]. *)
Definition decimal_from (n : Z) (ds : list Z) : Z :=
  fold_left (fun acc c => acc * 10 + (c - 48)) ds n.

Definition decimal_value (ds : list Z) : Z := decimal_from 0 ds.

(** The prefix of [s] that stops before its [n]-th dot ([n >= 1]); all of
    [s] when it has fewer dots. *)
Fixpoint truncate_dots (n : nat) (s : string) : string :=
  match s with
  | EmptyString => EmptyString
  | String c s' =>
      if Ascii.eqb c "."
      then match n with
           | S (S n') => String c (truncate_dots (S n') s')
           | _ => EmptyString
           end
      else String c (truncate_dots n s')
  end.

(** The major.minor identifier of a version string: its first two
    dot-separated components, joined by a dot. *)
Definition major_minor (v : string) : string := truncate_dots 2 v.

Definition has_dot (v : string) : bool :=
  existsb (fun c => Ascii.eqb c ".") (String.list_ascii_of_string v).

(** How the runtime prints an unsigned integer: decimal digits, produced
    from the least significant one. *)
Fixpoint utoa_fuel (fuel : nat) (v : Z) (acc : list Z) : list Z :=
  match fuel with
  | O => acc
  | S fuel' =>
      let acc' := (v mod 10 + 48) :: acc in
      if v <? 10 then acc' else utoa_fuel fuel' (v / 10) acc'
  end.

Definition utoa (v : Z) : list Z := utoa_fuel 20 v [].

(** The word at byte [off] of the calling goroutine's [g]. *)
Definition g_field (h : Host) (off : Z) : Z :=
  load64 (mem h) (wrap64 (wrap64 (tls_g h) + off)).

(** The running runtime keeps [goid] at byte [off] of [g], and its
    traceback of the calling goroutine starts with the header
    ["goroutine <goid> [<status>]:"]. *)
Definition runtime_goid_at (h : Host) (off : Z) : Prop :=
  exists tail,
    stack_text h false
    = label ++ utoa (g_field h off) ++ bytes_of_string " [" ++ tail.

(** The body of [GetGoID] a target pair is meant to get. *)
Definition GetGoID_body_for (os : OS) (arch : Arch) : body :=
  match arch with
  | amd64 => BodyAsm
  | arm64 => match os with windows => BodySlow | _ => BodyField end
  | _ => BodySlow
  end.

(** The offset the fast path of a linked program adds to [g]. *)
Definition fast_offset (pr : program) (p : Process) : option Z :=
  match pr with
  | FastAsm => Some (offset p)
  | FastField off => Some off
  | Slow => None
  end.

Definition count_version (t : list event) : nat :=
  length (List.filter (fun e => match e with EvVersion => true | _ => false end) t).

(** ** Builds and hosts for the examples *)

Definition linux_amd64 (minor : nat) : Build :=
  {| GOOS := linux; GOARCH := amd64; compiler := gc; go_minor := minor |}.

Definition linux_arm64 (minor : nat) : Build :=
  {| GOOS := linux; GOARCH := arm64; compiler := gc; go_minor := minor |}.

(** A goroutine whose [g] is at address 4096, with [stack.lo = 0xc000000000]
    in its first word and the identifier 1 at byte 152, on a runtime that
    reports [v]. *)
Definition sample_host (v : string) : Host :=
  {| version := v;
     tls_g := 4096;
     mem := fun a => if a =? 4096 + 152 then 1
                     else if a =? 4096 + 4 then 192
                     else 0;
     stack_text := fun _ => bytes_of_string "goroutine 1 [running]:" |}.

(** ** The Go 1.5 declaration of [g]

    A fourth file declares [g], for Go 1.5 alone
    ([//go:build go1.5 && !go1.6 && arm64]); its [gobuf] is the one of the
    Go 1.6 file. *)

Definition g_go1_5 : list (string * gotype) :=
  [ ("stack", stack); ("stackguard0", Tuintptr); ("stackguard1", Tuintptr);
    ("_panic", Tuintptr); ("_defer", Tuintptr); ("m", Tuintptr);
    ("stackAlloc", Tuintptr);
    ("sched", gobuf_go1_6);
    ("syscallsp", Tuintptr); ("syscallpc", Tuintptr);
    ("stkbar", Tslice Tuintptr); ("stkbarPos", Tuintptr);
    ("param", Tuintptr);
    ("atomicstatus", Tuint32); ("stackLock", Tuint32);
    ("goid", Tint64) ].

Definition g_file_go1_5 : constraint * list (string * gotype) :=
  (CAnd (CAnd (CTag (TagGo1 5)) (CNot (CTag (TagGo1 6)))) (CTag (TagArch arm64)),
   g_go1_5).

(** The four declarations of [g] together. *)
Definition g_files_all : list (constraint * list (string * gotype)) :=
  g_files ++ [g_file_go1_5].

(** The version key of the releases of Go 1.[n]: ["go1.n"]. *)
Definition release_key (n : nat) : string := "go1." +:+ pretty n.

(** The offsets the table holds, and the zero of an absent key. *)
Definition offsets_in_use : list Z := [0; 128; 152; 160; 184; 192].

(** ** Package [log]: levels *)

Module Log.

Definition DebugLevel : Z := 0.
Definition InfoLevel : Z := 1.
Definition WarnLevel : Z := 2.
Definition ErrorLevel : Z := 3.
Definition FatalLevel : Z := 4.

(** [func (l Level) String() string]. *)
Definition String (l : Z) : string :=
  if l =? DebugLevel then "debug"
  else if l =? InfoLevel then "info"
  else if l =? WarnLevel then "warn"
  else if l =? ErrorLevel then "error"
  else if l =? FatalLevel then "fatal"
  else "unknown".

(** [ParseLevel]: the level and the error ([None] for [nil], else the
    message of [fmt.Errorf("unknown level: %s", level)]). *)
Definition ParseLevel (level : string) : Z * option string :=
  if String.eqb level "debug" then (DebugLevel, None)
  else if String.eqb level "info" then (InfoLevel, None)
  else if String.eqb level "warn" then (WarnLevel, None)
  else if String.eqb level "error" then (ErrorLevel, None)
  else if String.eqb level "fatal" then (FatalLevel, None)
  else (InfoLevel, Some ("unknown level: " +:+ level)).

(** The levels of the logrus library, in its order. *)
Inductive logrus_Level : Type :=
| logrus_PanicLevel
| logrus_FatalLevel
| logrus_ErrorLevel
| logrus_WarnLevel
| logrus_InfoLevel
| logrus_DebugLevel
| logrus_TraceLevel.

#[global] Instance logrus_Level_eq_dec : EqDecision logrus_Level.
Proof. solve_decision. Defined.

Definition logrusLevelMap : gmap Z logrus_Level :=
  list_to_map
    [ (DebugLevel, logrus_DebugLevel);
      (InfoLevel, logrus_InfoLevel);
      (WarnLevel, logrus_WarnLevel);
      (ErrorLevel, logrus_ErrorLevel);
      (FatalLevel, logrus_FatalLevel) ].

(** [LogrusLogger.SetLevel] on the level the logrus logger holds: a
    level outside the map changes nothing. *)
Definition SetLevel (level : Z) (current : logrus_Level) : logrus_Level :=
  match logrusLevelMap !! level with
  | Some logrusLevel => logrusLevel
  | None => current
  end.

(** [LogrusLogger.GetLevel]: the loop [for level, lLevel := range
    logrusLevelMap] visits the entries in an order the language leaves
    open; [order] is the order of one run. *)
Fixpoint GetLevel_loop (order : list (Z * logrus_Level)) (logrusLevel : logrus_Level)
  : Z :=
  match order with
  | [] => InfoLevel
  | (level, lLevel) :: order' =>
      if bool_decide (lLevel = logrusLevel) then level
      else GetLevel_loop order' logrusLevel
  end.

Definition GetLevel (order : list (Z * logrus_Level)) (current : logrus_Level) : Z :=
  GetLevel_loop order current.

End Log.

(** ** A goroutine between two calls *)

(** The version string of a development toolchain up to Go 1.16. *)
Definition devel_version : string :=
  "devel +a1130592e1 Fri Oct 9 19:05:13 2020 +0000".

(** [sample_host] after the runtime has moved the goroutine's stack:
    [stack.lo] in the first word of [g] is now [0xc000100000]; the
    identifier and the traceback header are as before. *)
Definition moved_host (v : string) : Host :=
  {| version := v;
     tls_g := 4096;
     mem := fun a => if a =? 4096 + 152 then 1
                     else if a =? 4096 + 4 then 192
                     else if a =? 4096 + 2 then 16
                     else 0;
     stack_text := fun _ => bytes_of_string "goroutine 1 [running]:" |}.

(** Two states of the host seen by one goroutine that keeps running, on a
    runtime that keeps [goid] at byte [off] of [g]: the version, the
    pointer to its [g] and its identifier are the same, and the traceback
    starts with the header in both; every other byte of memory (the stack
    bounds, the saved registers, the status) and the rest of the traceback
    may differ. *)
Definition same_goroutine (off : Z) (h h' : Host) : Prop :=
  version h' = version h
  /\ tls_g h' = tls_g h
  /\ g_field h' off = g_field h off
  /\ runtime_goid_at h off
  /\ runtime_goid_at h' off.

(** * Properties *)

(** ** Slices and byte search *)

Lemma len_app {A} (l r : list A) : len (l ++ r) = len l + len r.
Proof. unfold len. rewrite length_app. lia. Qed.

Lemma len_nonneg {A} (l : list A) : 0 <= len l.
Proof. unfold len. lia. Qed.

Lemma slice_from_app {A} (l r : list A) : slice_from (l ++ r) (len l) = Ok r.
Proof.
  unfold slice_from. rewrite len_app.
  pose proof (len_nonneg l). pose proof (len_nonneg r).
  rewrite andb_true_intro by (split; apply Z.leb_le; lia).
  unfold len. rewrite Nat2Z.id, drop_app_length. reflexivity.
Qed.

Lemma slice_to_app {A} (l r : list A) : slice_to (l ++ r) (len l) = Ok l.
Proof.
  unfold slice_to. rewrite len_app.
  pose proof (len_nonneg l). pose proof (len_nonneg r).
  rewrite andb_true_intro by (split; apply Z.leb_le; lia).
  unfold len. rewrite Nat2Z.id, take_app_length. reflexivity.
Qed.

Lemma IndexByte_bounds (s : list Z) (c : Z) : -1 <= IndexByte s c < len s.
Proof.
  induction s as [|x s IH]; simpl.
  - unfold len; simpl; lia.
  - unfold len in *; simpl length.
    destruct (x =? c); [lia|].
    destruct (IndexByte s c <? 0) eqn:E; [lia|].
    apply Z.ltb_ge in E. lia.
Qed.

Lemma IndexByte_first (ds rest : list Z) (c : Z) :
  Forall (fun x => x <> c) ds -> IndexByte (ds ++ c :: rest) c = len ds.
Proof.
  induction 1 as [|x ds Hx _ IH]; simpl.
  - rewrite Z.eqb_refl. reflexivity.
  - apply Z.eqb_neq in Hx. rewrite Hx, IH.
    pose proof (len_nonneg ds).
    destruct (len ds <? 0) eqn:E; [apply Z.ltb_lt in E; lia|].
    unfold len; simpl length. lia.
Qed.

(** ** [strconv.ParseInt] on the spans the parser meets *)

Lemma decimal_from_mono (ds : list Z) :
  forall n, 0 <= n -> Forall is_digit ds -> n <= decimal_from n ds.
Proof.
  unfold decimal_from, is_digit.
  induction ds as [|c ds IH]; simpl; intros n Hn Hds; [lia|].
  inversion Hds as [|? ? Hc Hds']; subst.
  etransitivity; [|apply IH; [lia|assumption]]. lia.
Qed.

Lemma decimal_from_snoc (ds : list Z) (c n : Z) :
  decimal_from n (ds ++ [c]) = decimal_from n ds * 10 + (c - 48).
Proof. unfold decimal_from. rewrite fold_left_app. reflexivity. Qed.

Lemma ParseUint_loop_digits (ds : list Z) :
  forall n,
    0 <= n -> Forall is_digit ds -> decimal_from n ds <= maxUint64 ->
    ParseUint_loop 10 (maxUint64 / 10 + 1) (2 ^ 64 - 1) n ds
    = (decimal_from n ds, None).
Proof.
  induction ds as [|c ds IH]; intros n Hn Hds Hmax; [reflexivity|].
  inversion Hds as [|? ? Hc Hds']; subst.
  pose proof Hc as Hc'. unfold is_digit in Hc'.
  assert (Hstep : n * 10 + (c - 48) <= maxUint64).
  { etransitivity; [|exact Hmax].
    apply (decimal_from_mono ds (n * 10 + (c - 48))); [lia|assumption]. }
  change (decimal_from n (c :: ds)) with (decimal_from (n * 10 + (c - 48)) ds) in *.
  unfold maxUint64 in *.
  change (2 ^ 64) with 18446744073709551616 in *.
  cbn [ParseUint_loop].
  change (2 ^ 64) with 18446744073709551616.
  change ((18446744073709551616 - 1) / 10 + 1) with 1844674407370955162.
  replace ((48 <=? c) && (c <=? 57)) with true
    by (symmetry; apply andb_true_intro; split; apply Z.leb_le; lia).
  replace (10 <=? c - 48) with false by (symmetry; apply Z.leb_gt; lia).
  replace (1844674407370955162 <=? n) with false by (symmetry; apply Z.leb_gt; lia).
  rewrite (Z.mod_small (n * 10)) by lia.
  rewrite (Z.mod_small (n * 10 + (c - 48))) by lia.
  replace (n * 10 + (c - 48) <? n * 10) with false by (symmetry; apply Z.ltb_ge; lia).
  replace (18446744073709551616 - 1 <? n * 10 + (c - 48)) with false
    by (symmetry; apply Z.ltb_ge; lia).
  cbn [orb].
  apply IH; [lia|assumption|assumption].
Qed.

Lemma ParseInt_digits (ds : list Z) :
  ds <> [] -> Forall is_digit ds -> decimal_value ds < 2 ^ 63 ->
  ParseInt ds 10 64 = (decimal_value ds, None).
Proof.
  intros Hne Hds Hlt.
  destruct ds as [|c ds']; [congruence|].
  assert (Hc : is_digit c) by (inversion Hds; assumption).
  unfold is_digit in Hc.
  unfold ParseInt.
  replace (c =? 43) with false by (symmetry; apply Z.eqb_neq; lia).
  replace (c =? 45) with false by (symmetry; apply Z.eqb_neq; lia).
  unfold ParseUint.
  change (2 ^ 63) with 9223372036854775808 in Hlt.
  rewrite ParseUint_loop_digits;
    [|lia|assumption|unfold maxUint64; change (2 ^ 64) with 18446744073709551616;
      fold (decimal_value (c :: ds')); lia].
  fold (decimal_value (c :: ds')).
  change (2 ^ (64 - 1)) with 9223372036854775808.
  replace (9223372036854775808 <=? decimal_value (c :: ds')) with false
    by (symmetry; apply Z.leb_gt; lia).
  reflexivity.
Qed.

(** A run of digits beyond [uint64] stops the loop with a range error. *)
Lemma ParseUint_loop_overflow (ds : list Z) :
  forall n,
    0 <= n <= maxUint64 -> Forall is_digit ds -> maxUint64 < decimal_from n ds ->
    ParseUint_loop 10 (maxUint64 / 10 + 1) (2 ^ 64 - 1) n ds
    = (2 ^ 64 - 1, Some ErrRange).
Proof.
  induction ds as [|c ds IH]; intros n Hn Hds Hov.
  - unfold decimal_from in Hov. simpl in Hov. lia.
  - inversion Hds as [|? ? Hc Hds']; subst.
    pose proof Hc as Hc'. unfold is_digit in Hc'.
    change (decimal_from n (c :: ds)) with (decimal_from (n * 10 + (c - 48)) ds) in Hov.
    unfold maxUint64 in *.
    change (2 ^ 64) with 18446744073709551616 in *.
    cbn [ParseUint_loop].
    change (2 ^ 64) with 18446744073709551616.
    change ((18446744073709551616 - 1) / 10 + 1) with 1844674407370955162.
    replace ((48 <=? c) && (c <=? 57)) with true
      by (symmetry; apply andb_true_intro; split; apply Z.leb_le; lia).
    replace (10 <=? c - 48) with false by (symmetry; apply Z.leb_gt; lia).
    destruct (1844674407370955162 <=? n) eqn:E1; [reflexivity|].
    apply Z.leb_gt in E1.
    rewrite (Z.mod_small (n * 10)) by lia.
    destruct (Z_lt_le_dec (n * 10 + (c - 48)) 18446744073709551616) as [Hlt|Hge].
    + rewrite (Z.mod_small (n * 10 + (c - 48))) by lia.
      replace (n * 10 + (c - 48) <? n * 10) with false
        by (symmetry; apply Z.ltb_ge; lia).
      replace (18446744073709551616 - 1 <? n * 10 + (c - 48)) with false
        by (symmetry; apply Z.ltb_ge; lia).
      cbn [orb]. apply IH; [lia|assumption|assumption].
    + assert (Hw : (n * 10 + (c - 48)) mod 18446744073709551616
                   = n * 10 + (c - 48) - 18446744073709551616).
      { rewrite <- (Z.mod_add (n * 10 + (c - 48)) (-1) 18446744073709551616)
          by discriminate.
        apply Z.mod_small. lia. }
      rewrite Hw.
      replace (n * 10 + (c - 48) - 18446744073709551616 <? n * 10) with true
        by (symmetry; apply Z.ltb_lt; lia).
      reflexivity.
Qed.

(** On a run of digits [ParseInt] gives the number they denote, capped at
    the largest [int64]. *)
Lemma ParseInt_digits_capped (ds : list Z) :
  ds <> [] -> Forall is_digit ds ->
  fst (ParseInt ds 10 64) = Z.min (decimal_value ds) (2 ^ 63 - 1).
Proof.
  intros Hne Hds.
  destruct (Z_lt_le_dec (decimal_value ds) (2 ^ 63)) as [Hlt|Hge].
  - rewrite ParseInt_digits by assumption. cbn [fst]. lia.
  - destruct ds as [|c ds']; [congruence|].
    assert (Hc : is_digit c) by (inversion Hds; assumption).
    unfold is_digit in Hc.
    unfold ParseInt.
    replace (c =? 43) with false by (symmetry; apply Z.eqb_neq; lia).
    replace (c =? 45) with false by (symmetry; apply Z.eqb_neq; lia).
    unfold ParseUint.
    change (2 ^ 63) with 9223372036854775808 in *.
    change (2 ^ (64 - 1)) with 9223372036854775808.
    destruct (Z_le_gt_dec (decimal_value (c :: ds')) maxUint64) as [Hle|Hgt].
    + rewrite ParseUint_loop_digits; [|lia|assumption|exact Hle].
      fold (decimal_value (c :: ds')).
      replace (9223372036854775808 <=? decimal_value (c :: ds')) with true
        by (symmetry; apply Z.leb_le; lia).
      cbn [negb andb fst]. lia.
    + rewrite ParseUint_loop_overflow;
        [|unfold maxUint64; change (2 ^ 64) with 18446744073709551616; lia
         |assumption|unfold decimal_value in Hgt; lia].
      cbn [negb andb fst]. change (2 ^ 64 - 1) with 18446744073709551615.
      cbn [Z.leb Z.compare Pos.compare Pos.compare_cont fst]. lia.
Qed.

(** A character that is no digit ends the digit loop with a syntax error. *)
Lemma ParseUint_loop_nondigit (c n : Z) (s : list Z) (cutoff maxVal : Z) :
  ~ is_digit c -> ParseUint_loop 10 cutoff maxVal n (c :: s) = (0, Some ErrSyntax).
Proof.
  intros Hc. unfold is_digit in Hc. cbn [ParseUint_loop].
  destruct ((48 <=? c) && (c <=? 57)) eqn:E.
  - apply andb_prop in E as [E1 E2]. apply Z.leb_le in E1, E2. lia.
  - destruct ((97 <=? lower c) && (lower c <=? 122)) eqn:E'; [|reflexivity].
    apply andb_prop in E' as [E1 E2]. apply Z.leb_le in E1, E2.
    replace (10 <=? lower c - 97 + 10) with true by (symmetry; apply Z.leb_le; lia).
    reflexivity.
Qed.

Lemma ParseUint_nodigits (s : list Z) :
  Forall (fun c => ~ is_digit c) s -> ParseUint s 10 64 = (0, Some ErrSyntax).
Proof.
  intros Hs. destruct s as [|c s']; [reflexivity|].
  unfold ParseUint. apply ParseUint_loop_nondigit. inversion Hs; assumption.
Qed.

Lemma ParseInt_nodigits (s : list Z) :
  Forall (fun c => ~ is_digit c) s -> fst (ParseInt s 10 64) = 0.
Proof.
  intros Hs. destruct s as [|c s']; [reflexivity|].
  assert (Hs' : Forall (fun c => ~ is_digit c) s') by (inversion Hs; assumption).
  unfold ParseInt.
  destruct (c =? 43); [|destruct (c =? 45)];
    rewrite ParseUint_nodigits by assumption; reflexivity.
Qed.

(** ** [extractGID] *)

(** The parser on a snapshot with a space somewhere after the label: it
    hands the span between the two to [ParseInt] and drops the error. *)
Lemma extractGID_span (rest : list Z) :
  0 <= IndexByte rest 32 ->
  extractGID (label ++ rest)
  = Ok (fst (ParseInt (take (Z.to_nat (IndexByte rest 32)) rest) 10 64)).
Proof.
  intros Hi. unfold extractGID.
  rewrite slice_from_app. cbn [mbind result_bind].
  unfold slice_to.
  pose proof (IndexByte_bounds rest 32).
  rewrite andb_true_intro by (split; apply Z.leb_le; lia).
  cbn [mbind result_bind].
  destruct (ParseInt _ 10 64). reflexivity.
Qed.

Lemma extractGID_delimited (ds rest : list Z) :
  Forall (fun c => c <> 32) ds ->
  extractGID (label ++ ds ++ 32 :: rest) = Ok (fst (ParseInt ds 10 64)).
Proof.
  intros Hds.
  pose proof (IndexByte_first ds rest 32 Hds) as Hi.
  rewrite extractGID_span by (rewrite Hi; apply len_nonneg).
  rewrite Hi. unfold len. rewrite Nat2Z.id, take_app_length. reflexivity.
Qed.

Lemma digits_not_space (ds : list Z) :
  Forall is_digit ds -> Forall (fun c => c <> 32) ds.
Proof.
  intros H. eapply Forall_impl; [exact H|].
  unfold is_digit. intros; lia.
Qed.

(** ** The slow path as a whole *)

Lemma M_bind_run {A B} (m : M A) (k : A -> M B) (t : list event) :
  (m ≫= k) t
  = match m t with
    | (Ok a, t') => k a t'
    | (Panic, t') => (Panic, t')
    end.
Proof. reflexivity. Qed.

Lemma M_ret_run {A} (a : A) (t : list event) : (mret a : M A) t = (Ok a, t).
Proof. reflexivity. Qed.

(** One call of [getGoIDSlow]: one snapshot request for 128 bytes, and the
    parser applied to what the runtime wrote. *)
Lemma getGoIDSlow_run (h : Host) (t : list event) :
  getGoIDSlow h t
  = (extractGID (take 128 (stack_text h false)), t ++ [EvStack 128 false]).
Proof.
  unfold getGoIDSlow.
  set (text := stack_text h false).
  set (buf := replicate (Z.to_nat initialBufferSize) 0).
  rewrite M_bind_run. unfold runtime_Stack. fold text.
  rewrite M_bind_run. unfold lift.
  assert (Hbuf : length buf = 128%nat) by (unfold buf; apply length_replicate).
  set (n := Nat.min (length text) (length buf)).
  assert (Hn : (n <= 128)%nat) by (unfold n; lia).
  assert (Hlen : length (take n text) = n)
    by (rewrite length_take; unfold n; lia).
  unfold slice_to, len.
  rewrite length_app, Hlen, length_drop, Hbuf.
  rewrite andb_true_intro by (split; apply Z.leb_le; lia).
  rewrite Nat2Z.id.
  rewrite <- Hlen at 1. rewrite take_app_length.
  replace (take n text) with (take 128 text).
  - reflexivity.
  - unfold n. rewrite Hbuf.
    destruct (Nat.le_ge_cases (length text) 128) as [Hle|Hge].
    + rewrite Nat.min_l by assumption. rewrite !take_ge by lia. reflexivity.
    + rewrite Nat.min_r by assumption. reflexivity.
Qed.

(** ** How the runtime prints a number *)

Lemma utoa_fuel_digits (fuel : nat) :
  forall v acc,
    exists ds,
      utoa_fuel fuel v acc = ds ++ acc
      /\ Forall is_digit ds /\ (length ds <= fuel)%nat.
Proof.
  induction fuel as [|fuel IH]; intros v acc; simpl.
  - exists []. split; [reflexivity|]. split; [constructor|simpl; lia].
  - assert (Hd : is_digit (v mod 10 + 48))
      by (unfold is_digit; pose proof (Z.mod_pos_bound v 10); lia).
    destruct (v <? 10).
    + exists [v mod 10 + 48]. split; [reflexivity|].
      split; [constructor; [assumption|constructor]|simpl; lia].
    + destruct (IH (v / 10) ((v mod 10 + 48) :: acc)) as (ds & E & Hds & Hl).
      exists (ds ++ [v mod 10 + 48]). rewrite E, <- app_assoc.
      split; [reflexivity|]. split.
      * apply Forall_app. split; [assumption|constructor; [assumption|constructor]].
      * rewrite length_app. simpl. lia.
Qed.

Lemma utoa_fuel_value (fuel : nat) :
  forall v acc,
    0 <= v < 10 ^ Z.of_nat (S fuel) ->
    exists ds,
      utoa_fuel (S fuel) v acc = ds ++ acc
      /\ ds <> []
      /\ forall m, decimal_from m ds = m * 10 ^ len ds + v.
Proof.
  assert (Hlow : forall v acc, 0 <= v < 10 ->
            (v mod 10 + 48) :: acc = [v mod 10 + 48] ++ acc
            /\ [v mod 10 + 48] <> []
            /\ forall m, decimal_from m [v mod 10 + 48] = m * 10 ^ len [v mod 10 + 48] + v).
  { intros v acc Hv. split; [reflexivity|]. split; [congruence|].
    intros m. unfold decimal_from, len. simpl.
    rewrite Z.mod_small by lia. lia. }
  induction fuel as [|fuel IH]; intros v acc Hv.
  - cbn [utoa_fuel].
    destruct (v <? 10) eqn:E.
    + apply Z.ltb_lt in E. eexists. apply Hlow. lia.
    + apply Z.ltb_ge in E. simpl in Hv. lia.
  - remember (S fuel) as fuel1 eqn:Hf. cbn [utoa_fuel].
    destruct (v <? 10) eqn:E.
    + apply Z.ltb_lt in E. eexists. apply Hlow. lia.
    + apply Z.ltb_ge in E.
      assert (Hv' : 0 <= v / 10 < 10 ^ Z.of_nat fuel1).
      { split; [apply Z.div_pos; lia|].
        apply Z.div_lt_upper_bound; [lia|].
        replace (Z.of_nat (S fuel1)) with (Z.of_nat fuel1 + 1) in Hv by lia.
        rewrite Z.pow_add_r in Hv by lia. lia. }
      subst fuel1.
      destruct (IH (v / 10) ((v mod 10 + 48) :: acc) Hv') as (ds & Eq & Hne & Hval).
      exists (ds ++ [v mod 10 + 48]). rewrite Eq, <- app_assoc.
      split; [reflexivity|]. split.
      * destruct ds; discriminate.
      * intros m. rewrite decimal_from_snoc, Hval, len_app.
        change (len [v mod 10 + 48]) with 1.
        rewrite Z.pow_add_r by (try apply len_nonneg; lia).
        pose proof (Z.div_mod v 10). lia.
Qed.

Lemma utoa_digits (v : Z) : Forall is_digit (utoa v) /\ (length (utoa v) <= 20)%nat.
Proof.
  unfold utoa. destruct (utoa_fuel_digits 20 v []) as (ds & E & Hds & Hl).
  rewrite E, app_nil_r. split; assumption.
Qed.

Lemma utoa_value (v : Z) :
  0 <= v < 2 ^ 64 -> utoa v <> [] /\ decimal_value (utoa v) = v.
Proof.
  intros Hv. unfold utoa.
  destruct (utoa_fuel_value 19 v []) as (ds & E & Hne & Hval).
  { change (2 ^ 64) with 18446744073709551616 in Hv.
    change (10 ^ Z.of_nat 20) with 100000000000000000000. lia. }
  rewrite E, app_nil_r. split; [assumption|].
  unfold decimal_value. rewrite Hval. lia.
Qed.

(** On a runtime that prints the header, the slow path hands the printed
    digits to [ParseInt]: the 128 bytes always hold the whole header. *)
Lemma getGoIDSlow_header (h : Host) (off : Z) (t : list event) :
  runtime_goid_at h off ->
  getGoIDSlow h t
  = (Ok (fst (ParseInt (utoa (g_field h off)) 10 64)), t ++ [EvStack 128 false]).
Proof.
  intros [tail Htext]. rewrite getGoIDSlow_run, Htext. f_equal.
  destruct (utoa_digits (g_field h off)) as [Hds Hl].
  set (ds := utoa (g_field h off)) in *.
  change (bytes_of_string " [" ++ tail) with (32 :: 91 :: tail).
  assert (Htake : take 128 (label ++ ds ++ 32 :: 91 :: tail)
                  = label ++ ds ++ 32 :: take (117 - length ds) (91 :: tail)).
  { rewrite take_app. change (length label) with 10%nat.
    rewrite (take_ge label) by (change (length label) with 10%nat; lia).
    f_equal. rewrite take_app, (take_ge ds) by lia. f_equal.
    replace (128 - 10 - length ds)%nat with (S (117 - length ds)) by lia.
    reflexivity. }
  rewrite Htake. apply extractGID_delimited, digits_not_space, Hds.
Qed.

(** ** The parser on crafted snapshots *)

(** C4, as the code has it: on a snapshot made of the label
    ["goroutine "], decimal digits, a space and a remainder, the parser
    strips the label, finds the delimiter right after the digits, parses
    the digit span in base 10 as a signed 64-bit integer and returns the
    result: the number the digits denote when it fits such an integer
    (otherwise [ParseInt] caps it at the largest one). *)
Theorem extractGID_header (ds rest : list Z) :
  ds <> [] -> Forall is_digit ds ->
  slice_from (label ++ ds ++ 32 :: rest) (len label) = Ok (ds ++ 32 :: rest)
  /\ IndexByte (ds ++ 32 :: rest) 32 = len ds
  /\ extractGID (label ++ ds ++ 32 :: rest) = Ok (fst (ParseInt ds 10 64))
  /\ fst (ParseInt ds 10 64) = Z.min (decimal_value ds) (2 ^ 63 - 1)
  /\ (decimal_value ds < 2 ^ 63 ->
      ParseInt ds 10 64 = (decimal_value ds, None)
      /\ extractGID (label ++ ds ++ 32 :: rest) = Ok (decimal_value ds)).
Proof.
  intros Hne Hds.
  pose proof (digits_not_space ds Hds) as Hsp.
  split; [apply slice_from_app|].
  split; [apply IndexByte_first; assumption|].
  split; [apply extractGID_delimited; assumption|].
  split; [apply ParseInt_digits_capped; assumption|].
  intros Hlt. split; [apply ParseInt_digits; assumption|].
  rewrite extractGID_delimited by assumption.
  rewrite ParseInt_digits by assumption. reflexivity.
Qed.

Lemma extractGID_header_witness :
  extractGID (bytes_of_string "goroutine 42 trailing") = Ok 42.
Proof.
  refine (proj2 (proj2 (proj2 (proj2 (proj2
    (extractGID_header [52; 50] (bytes_of_string "trailing") _ _)))) _)).
  - discriminate.
  - repeat (constructor; [unfold is_digit; lia|]). constructor.
  - reflexivity.
Defined.

(** C4, as stated, fails: the snapshot ["label 42 trailing"] does not
    start with the ten bytes of the label the code skips; what is left
    after them, ["railing"], has no space and the parser panics instead of
    returning 42.  And a digit span beyond [int64] does not come back as
    the number it denotes. *)
Lemma extractGID_label_example_panics :
  extractGID (bytes_of_string "label 42 trailing") = Panic
  /\ extractGID (bytes_of_string "label 42 trailing") <> Ok 42
  /\ extractGID (bytes_of_string "goroutine 9223372036854775808 trailing")
     = Ok 9223372036854775807.
Proof. split; [reflexivity|]. split; [discriminate|reflexivity]. Qed.

(** C3, as the code has it: a snapshot that starts with the label, goes on
    with a span free of digits and is then delimited by a space, parses to
    [0] without a panic; the slow path does not panic on a snapshot that
    starts with the runtime's header; the fast path only loads, and
    returns. *)
Theorem extractGID_no_digits :
  (forall span tail,
      Forall (fun c => ~ is_digit c /\ c <> 32) span ->
      extractGID (label ++ span ++ 32 :: tail) = Ok 0)
  /\ (forall h off t,
        runtime_goid_at h off ->
        exists v, getGoIDSlow h t = (Ok v, t ++ [EvStack 128 false]))
  /\ (forall pr p t,
        pr <> Slow -> exists v, GetGoID pr p t = (Ok v, t)).
Proof.
  split; [|split].
  - intros span tail Hspan.
    rewrite extractGID_delimited
      by (eapply Forall_impl; [exact Hspan|]; intros c [_ Hc]; exact Hc).
    rewrite ParseInt_nodigits
      by (eapply Forall_impl; [exact Hspan|]; intros c [Hc _]; exact Hc).
    reflexivity.
  - intros h off t Hrt. eexists. apply (getGoIDSlow_header h off t Hrt).
  - intros pr p t Hpr. destruct pr as [|off|]; [| |congruence];
      eexists; reflexivity.
Qed.

Lemma extractGID_no_digits_witness :
  extractGID (bytes_of_string "goroutine abc [running]:") = Ok 0.
Proof.
  refine (proj1 extractGID_no_digits
            [97; 98; 99] (bytes_of_string "[running]:") _).
  repeat (constructor; [unfold is_digit; split; lia|]). constructor.
Defined.

(** C3, as stated, fails: after the label, no digit and no space. *)
Lemma extractGID_no_space_panics :
  extractGID (bytes_of_string "goroutine abc") = Panic
  /\ extractGID (bytes_of_string "goroutine abc") <> Ok 0.
Proof. split; [reflexivity|discriminate]. Qed.


(** ** The layout of [g] and the offset table *)

(** C10: in the Go 1.25 declaration of [g] the fields before [goid] take
    16 + 16 + 24 + 48 + 24 + 16 + 8 bytes, so [goid] is at byte 152, the
    entry of the offset table for ["go1.25"]. *)
Theorem goid_offset_go1_25 :
  sizeof stack = 16
  /\ sizeof gobuf_go1_25 = 48
  /\ field_offsets 0 g_go1_25
     = [ ("stack", 0); ("stackguard0", 16); ("stackguard1", 24);
         ("_panic", 32); ("_defer", 40); ("m", 48);
         ("sched", 56);
         ("syscallsp", 104); ("syscallpc", 112); ("syscallbp", 120);
         ("stktopsp", 128); ("param", 136);
         ("atomicstatus", 144); ("stackLock", 148);
         ("goid", 152) ]
  /\ 16 + 16 + 24 + 48 + 24 + 16 + 8 = 152
  /\ offsetof g_go1_25 "goid" = Some 152
  /\ offsetDict !! "go1.25" = Some 152.
Proof. repeat split; vm_compute; reflexivity. Qed.

(** The other two declarations, for comparison with the table. *)
Lemma goid_offset_go1_6 :
  offsetof g_go1_6 "goid" = Some 192 /\ offsetDict !! "go1.6" = Some 192.
Proof. split; vm_compute; reflexivity. Qed.

Lemma goid_offset_gccgo : offsetof g_gccgo "goid" = Some 56.
Proof. vm_compute; reflexivity. Qed.

(** ** Which [GetGoID] a build gets *)

Lemma selected_GetGoID (b : Build) :
  selected b GetGoID_files = [GetGoID_body_for (GOOS b) (GOARCH b)].
Proof. destruct b as [os arch c n]. destruct os, arch; reflexivity. Qed.

(** C7: whatever the target pair (and compiler and release), exactly one
    of the four files that define [GetGoID] satisfies its build
    constraint; which one is a function of the pair alone, fixed when the
    package is built. *)
Theorem GetGoID_one_definition (b : Build) :
  length (List.filter (fun f => sat b (fst f)) GetGoID_files) = 1%nat
  /\ selected b GetGoID_files = [GetGoID_body_for (GOOS b) (GOARCH b)].
Proof.
  split; [|apply selected_GetGoID].
  destruct b as [os arch c n]. destruct os, arch; reflexivity.
Qed.

(** ** The version key *)

Lemma Split_nonempty (s : string) (sep : ascii) : Split s sep <> [].
Proof.
  destruct s as [|c s]; simpl; [discriminate|].
  destruct (Ascii.eqb c sep); [discriminate|].
  destruct (Split s sep); discriminate.
Qed.

Lemma Join_cons_char (c : ascii) (p : string) (rest : list string) (sep : string) :
  Join (String c p :: rest) sep = String c (Join (p :: rest) sep).
Proof. destruct rest; reflexivity. Qed.

(** Joining the first [n >= 1] pieces gives the text before the [n]-th dot. *)
Lemma Join_take_Split (s : string) :
  forall n, Join (take (S n) (Split s ".")) "." = truncate_dots (S n) s.
Proof.
  induction s as [|c s IH]; intros n.
  - simpl. destruct n; reflexivity.
  - cbn [Split truncate_dots].
    destruct (Ascii.eqb c ".") eqn:E.
    + apply Ascii.eqb_eq in E. subst c.
      destruct n as [|n]; [reflexivity|].
      specialize (IH n).
      change (take (S (S n)) (EmptyString :: Split s "."))
        with (EmptyString :: take (S n) (Split s ".")).
      destruct (Split s ".") as [|p ps] eqn:Es;
        [exfalso; revert Es; apply Split_nonempty|].
      change (take (S n) (p :: ps)) with (p :: take n ps) in *.
      cbn [Join]. rewrite <- IH. reflexivity.
    + specialize (IH n).
      destruct (Split s ".") as [|p ps] eqn:Es;
        [exfalso; revert Es; apply Split_nonempty|].
      change (take (S n) (String c p :: ps)) with (String c p :: take n ps).
      change (take (S n) (p :: ps)) with (p :: take n ps) in IH.
      rewrite Join_cons_char, IH. reflexivity.
Qed.

Lemma has_dot_cons (c : ascii) (s : string) :
  has_dot (String c s) = Ascii.eqb c "." || has_dot s.
Proof. reflexivity. Qed.

Lemma Split_length_dot (v : string) :
  has_dot v = true -> (2 <= length (Split v "."))%nat.
Proof.
  induction v as [|c v IH]; [discriminate|].
  rewrite has_dot_cons. cbn [Split].
  pose proof (Split_nonempty v ".") as Hne.
  destruct (Ascii.eqb c "."); simpl.
  - intros _. destruct (Split v "."); [congruence|simpl; lia].
  - intros Hv. specialize (IH Hv).
    destruct (Split v "."); [congruence|simpl in *; lia].
Qed.

Lemma Split_length_nodot (v : string) :
  has_dot v = false -> length (Split v ".") = 1%nat.
Proof.
  induction v as [|c v IH]; [reflexivity|].
  rewrite has_dot_cons. cbn [Split].
  destruct (Ascii.eqb c "."); simpl; [discriminate|].
  intros Hv. specialize (IH Hv).
  destruct (Split v "."); [discriminate|simpl in *; lia].
Qed.

Lemma version_key_dot (v : string) :
  has_dot v = true -> version_key v = Ok (major_minor v).
Proof.
  intros Hv. apply Split_length_dot in Hv.
  unfold version_key, slice_to, len.
  rewrite andb_true_intro by (split; apply Z.leb_le; lia).
  cbn [mbind result_bind mret result_ret].
  change (Z.to_nat 2) with 2%nat.
  rewrite Join_take_Split. reflexivity.
Qed.

Lemma version_key_nodot (v : string) :
  has_dot v = false -> version_key v = Panic.
Proof.
  intros Hv. apply Split_length_nodot in Hv.
  unfold version_key, slice_to, len. rewrite Hv. reflexivity.
Qed.

(** ** Package initialisation and the calls after it *)

Lemma offset_init_run (h : Host) (t : list event) :
  offset_init h t
  = (k ← version_key (version h); mret (default 0 (offsetDict !! k)),
     t ++ [EvVersion]).
Proof.
  unfold offset_init. rewrite M_bind_run. unfold runtime_Version.
  rewrite M_bind_run. unfold lift.
  destruct (version_key (version h)); reflexivity.
Qed.

Lemma pkg_init_amd64 (b : Build) (h : Host) (t : list event) :
  GOARCH b = amd64 ->
  pkg_init b h t
  = (k ← version_key (version h);
     mret {| host := h; offset := default 0 (offsetDict !! k) |},
     t ++ [EvVersion]).
Proof.
  intros Hb. unfold pkg_init, goid_offset_go. cbn [sat tag_sat].
  rewrite bool_decide_eq_true_2 by assumption.
  rewrite M_bind_run, offset_init_run.
  destruct (version_key (version h)); reflexivity.
Qed.

Lemma pkg_init_other (b : Build) (h : Host) (t : list event) :
  GOARCH b <> amd64 -> pkg_init b h t = (Ok {| host := h; offset := 0 |}, t).
Proof.
  intros Hb. unfold pkg_init, goid_offset_go. cbn [sat tag_sat].
  rewrite bool_decide_eq_false_2 by assumption. reflexivity.
Qed.

Lemma pkg_init_host (b : Build) (h : Host) (t t' : list event) (p : Process) :
  pkg_init b h t = (Ok p, t') -> host p = h.
Proof.
  destruct (decide (GOARCH b = amd64)) as [Hb|Hb].
  - rewrite pkg_init_amd64 by assumption.
    destruct (version_key (version h)) as [k|];
      cbn [mbind result_bind mret result_ret].
    + generalize (default 0 (offsetDict !! k)). intros o [= <- _]. reflexivity.
    + intros [=].
  - rewrite pkg_init_other by assumption. intros [= <- _]. reflexivity.
Qed.

Lemma count_version_snoc_stack (t : list event) (n : Z) (all : bool) :
  count_version (t ++ [EvStack n all]) = count_version t.
Proof.
  unfold count_version. rewrite List.filter_app, length_app. simpl. lia.
Qed.

Lemma count_version_snoc_version (t : list event) :
  count_version (t ++ [EvVersion]) = S (count_version t).
Proof.
  unfold count_version. rewrite List.filter_app, length_app. simpl. lia.
Qed.

Lemma do_call_version (pr : program) (p : Process) (c : call) (t : list event) :
  count_version (snd (do_call pr p c t)) = count_version t.
Proof.
  destruct c; [destruct pr| |]; cbn [do_call GetGoID GetGoIDSlow Offset];
    try reflexivity;
    rewrite getGoIDSlow_run; apply count_version_snoc_stack.
Qed.

(** The calls a caller makes never query the version again. *)
Lemma run_calls_version (pr : program) (p : Process) (cs : list call) :
  forall t, count_version (snd (run_calls pr p cs t)) = count_version t.
Proof.
  induction cs as [|c cs IH]; intros t; [reflexivity|].
  cbn [run_calls]. rewrite M_bind_run.
  pose proof (do_call_version pr p c t) as Hc.
  destruct (do_call pr p c t) as [[x|] t1]; cbn [snd] in Hc; [|exact Hc].
  rewrite M_bind_run.
  specialize (IH t1).
  destruct (run_calls pr p cs t1) as [[xs|] t2];
    try rewrite M_ret_run; cbn [snd] in IH |- *; congruence.
Qed.

(** On a build that compiles the offset table, for a version string with
    at least one dot, the key looked up is the text before the second dot
    (the first two dot-separated components joined by a dot);
    initialisation queries the version once and the calls made afterwards
    never do. *)
Theorem version_key_major_minor
    (b : Build) (h : Host) (pr : program) (cs : list call) :
  GOARCH b = amd64 ->
  has_dot (version h) = true ->
  let p := {| host := h;
              offset := default 0 (offsetDict !! major_minor (version h)) |} in
  version_key (version h) = Ok (major_minor (version h))
  /\ pkg_init b h [] = (Ok p, [EvVersion])
  /\ count_version (snd (run_calls pr p cs [EvVersion])) = 1%nat.
Proof.
  intros Hb Hv p.
  split; [apply version_key_dot; assumption|]. split.
  - rewrite pkg_init_amd64 by assumption.
    rewrite version_key_dot by assumption. reflexivity.
  - rewrite run_calls_version. reflexivity.
Qed.

Lemma version_key_major_minor_witness :
  version_key "go1.25.3" = Ok "go1.25"
  /\ pkg_init (linux_amd64 25) (sample_host "go1.25.3") []
     = (Ok {| host := sample_host "go1.25.3"; offset := 152 |}, [EvVersion])
  /\ count_version
       (snd (run_calls FastAsm {| host := sample_host "go1.25.3"; offset := 152 |}
               [CallGetGoID; CallOffset; CallGetGoIDSlow] [EvVersion])) = 1%nat.
Proof.
  exact (version_key_major_minor (linux_amd64 25) (sample_host "go1.25.3") FastAsm
           [CallGetGoID; CallOffset; CallGetGoIDSlow] eq_refl eq_refl).
Defined.

(** C8 at a version string without a dot (the form development builds
    reported up to Go 1.16): [strings.Split] returns a single component,
    the slice expression [[:2]] panics, no key is formed and package
    initialisation aborts. *)
Lemma version_key_no_dot_panics :
  version_key "devel +a1130592e1 Fri Oct 9 19:05:13 2020 +0000" = Panic
  /\ version_key "devel +a1130592e1 Fri Oct 9 19:05:13 2020 +0000"
     <> Ok (major_minor "devel +a1130592e1 Fri Oct 9 19:05:13 2020 +0000")
  /\ fst (pkg_init (linux_amd64 16)
            (sample_host "devel +a1130592e1 Fri Oct 9 19:05:13 2020 +0000") [])
     = Panic.
Proof. split; [reflexivity|]. split; [discriminate|reflexivity]. Qed.

(** ** The fast path reads a word of [g] *)

Lemma load64_bounds (m : Z -> Z) (a : Z) : 0 <= load64 m a < 2 ^ 64.
Proof.
  unfold load64. change (seqZ 0 8) with [0; 1; 2; 3; 4; 5; 6; 7].
  cbn [foldr].
  repeat match goal with
         | |- context [?x mod 256] =>
             let H := fresh "H" in
             let v := fresh "v" in
             pose proof (Z.mod_pos_bound x 256 eq_refl) as H;
             set (v := x mod 256) in *; clearbody v
         end.
  change (2 ^ 64) with 18446744073709551616. lia.
Qed.

Lemma g_field_bounds (h : Host) (off : Z) : 0 <= g_field h off < 2 ^ 64.
Proof. apply load64_bounds. Qed.

Lemma signed64_small (v : Z) : v < 2 ^ 63 -> signed64 v = v.
Proof.
  intros Hv. unfold signed64.
  destruct (v <? 2 ^ 63) eqn:E; [reflexivity|]. apply Z.ltb_ge in E. lia.
Qed.

Lemma GetGoID_amd64_field (p : Process) :
  GetGoID_amd64 p = signed64 (g_field (host p) (offset p)).
Proof.
  unfold GetGoID_amd64, g_field. cbv zeta. do 2 f_equal.
  unfold wrap64. apply Z.add_mod_idemp_r. discriminate.
Qed.

Lemma GetGoID_fast (pr : program) (p : Process) (off : Z) (t : list event) :
  fast_offset pr p = Some off ->
  GetGoID pr p t = (Ok (signed64 (g_field (host p) off)), t).
Proof.
  destruct pr as [|off'|]; cbn [fast_offset GetGoID]; intros [= <-].
  - rewrite M_ret_run, GetGoID_amd64_field. reflexivity.
  - reflexivity.
Qed.

(** On a build with the table, when the running version has a key and
    the key is not in the table, initialisation succeeds with
    [offset = 0], and the fast path returns the first word of [g], without
    any failure. *)
Theorem offset_unlisted_version
    (b : Build) (h : Host) (k : string) (t : list event) :
  GOARCH b = amd64 ->
  version_key (version h) = Ok k ->
  offsetDict !! k = None ->
  pkg_init b h t = (Ok {| host := h; offset := 0 |}, t ++ [EvVersion])
  /\ forall t',
       Offset {| host := h; offset := 0 |} t' = (Ok 0, t')
       /\ GetGoID FastAsm {| host := h; offset := 0 |} t'
          = (Ok (signed64 (g_field h 0)), t').
Proof.
  intros Hb Hk Habs. split.
  - rewrite pkg_init_amd64 by assumption. rewrite Hk.
    cbn [mbind result_bind mret result_ret]. rewrite Habs. reflexivity.
  - intros t'. split; [reflexivity|].
    apply (GetGoID_fast FastAsm {| host := h; offset := 0 |} 0 t'). reflexivity.
Qed.

Lemma offset_unlisted_version_witness :
  pkg_init (linux_amd64 26) (sample_host "go1.26.0") []
  = (Ok {| host := sample_host "go1.26.0"; offset := 0 |}, [EvVersion])
  /\ forall t',
       Offset {| host := sample_host "go1.26.0"; offset := 0 |} t' = (Ok 0, t')
       /\ GetGoID FastAsm {| host := sample_host "go1.26.0"; offset := 0 |} t'
          = (Ok (signed64 (g_field (sample_host "go1.26.0") 0)), t').
Proof.
  exact (offset_unlisted_version (linux_amd64 26) (sample_host "go1.26.0")
           "go1.26" [] eq_refl eq_refl eq_refl).
Defined.

(** C2 at a version string without a dot: its major.minor identifier, the
    whole string, is not in the offset table, yet no offset is resolved;
    package initialisation queries the version and panics in the slice
    expression [[:2]]. *)
Lemma pkg_init_no_dot_version_panics :
  has_dot devel_version = false
  /\ major_minor devel_version = devel_version
  /\ offsetDict !! major_minor devel_version = None
  /\ pkg_init (linux_amd64 16) (sample_host devel_version) []
     = (Panic, [EvVersion]).
Proof. repeat split; vm_compute; reflexivity. Qed.

(** ** Accelerated builds *)

Lemma GetGoID_body_cases (os : OS) (arch : Arch) :
  (arch = amd64 /\ GetGoID_body_for os arch = BodyAsm)
  \/ (arch = arm64 /\ os <> windows /\ GetGoID_body_for os arch = BodyField)
  \/ GetGoID_body_for os arch = BodySlow.
Proof.
  destruct arch; try (right; right; reflexivity).
  - left. split; reflexivity.
  - destruct os; try (right; left; repeat split; discriminate).
    right; right; reflexivity.
Qed.

Section Builds.

(** The declarations of [g] in the files besides the three of [g_files]. *)
Variable more : list (constraint * list (string * gotype)).

(** A build that links a fast path is an amd64 build with the assembly
    routine, or an arm64 build off Windows that compiles exactly one
    declaration of [g] and reads its [goid] field. *)
Lemma compile_fast (b : Build) (pr : program) :
  compile more b = Some pr -> pr <> Slow ->
  (GOARCH b = amd64 /\ pr = FastAsm)
  \/ (GOARCH b = arm64 /\ GOOS b <> windows
      /\ exists g off,
           selected b (g_files ++ more) = [g]
           /\ offsetof g "goid" = Some off
           /\ pr = FastField off).
Proof.
  unfold compile. rewrite selected_GetGoID.
  destruct (GetGoID_body_cases (GOOS b) (GOARCH b))
    as [[Ha ->]|[(Ha & Ho & ->)| ->]];
    destruct (selected b (g_files ++ more)) as [|g [|g' gs]];
    try discriminate; try (intros [= <-] Hpr; congruence).
  - intros [= <-] _. left. split; [assumption|reflexivity].
  - intros [= <-] _. left. split; [assumption|reflexivity].
  - destruct (offsetof g "goid") as [off|] eqn:Eoff; [|discriminate].
    intros [= <-] _. right. split; [assumption|]. split; [assumption|].
    exists g, off. repeat split. assumption.
Qed.

(** C5, as the code has it: on an accelerated build [GetGoID] returns the
    64-bit integer loaded at the thread-local [g] pointer plus an offset;
    on amd64 the offset is the table's entry for the key of the running
    version (zero when absent), on arm64 it is the offset of the [goid]
    field in the declaration of [g] the build compiles. *)
Theorem GetGoID_fast_load
    (b : Build) (pr : program) (h : Host) (p : Process) (t0 t1 : list event) :
  compile more b = Some pr ->
  pr <> Slow ->
  pkg_init b h t0 = (Ok p, t1) ->
  exists off,
    (forall t, GetGoID pr p t = (Ok (signed64 (g_field h off)), t))
    /\ ((GOARCH b = amd64
         /\ exists k, version_key (version h) = Ok k
                      /\ off = default 0 (offsetDict !! k))
        \/ (GOARCH b = arm64 /\ GOOS b <> windows
            /\ exists g, selected b (g_files ++ more) = [g]
                         /\ offsetof g "goid" = Some off)).
Proof.
  intros Hc Hpr Hinit.
  pose proof (pkg_init_host b h t0 t1 p Hinit) as Hh.
  destruct (compile_fast b pr Hc Hpr)
    as [[Ha ->]|(Ha & Ho & g & off & Hg & Hoff & ->)].
  - rewrite pkg_init_amd64 in Hinit by assumption.
    destruct (version_key (version h)) as [k|] eqn:Ek; [|discriminate].
    cbn [mbind result_bind mret result_ret] in Hinit.
    remember (default 0 (offsetDict !! k)) as o eqn:Ho.
    injection Hinit as <- _.
    exists o. split.
    + intros t.
      apply (GetGoID_fast FastAsm {| host := h; offset := o |} o t). reflexivity.
    + left. split; [assumption|]. exists k. split; [reflexivity|exact Ho].
  - exists off. split.
    + intros t. rewrite <- Hh. apply (GetGoID_fast (FastField off) p off t).
      reflexivity.
    + right. split; [assumption|]. split; [assumption|].
      exists g. split; assumption.
Qed.

(** On an accelerated build, when the offset the fast path adds is the one
    at which the running runtime keeps the identifier, and the identifier
    fits a signed 64-bit integer, [GetGoID] and then [GetGoIDSlow] return
    the same value. *)
Theorem GetGoID_agrees_with_slow
    (b : Build) (pr : program) (h : Host) (p : Process) (off : Z)
    (t0 t1 : list event) :
  compile more b = Some pr ->
  pkg_init b h t0 = (Ok p, t1) ->
  fast_offset pr p = Some off ->
  runtime_goid_at h off ->
  g_field h off < 2 ^ 63 ->
  exists v t2 t3,
    GetGoID pr p t1 = (Ok v, t2)
    /\ GetGoIDSlow (host p) t2 = (Ok v, t3).
Proof.
  intros _ Hinit Hoff Hrt Hlt.
  pose proof (pkg_init_host b h t0 t1 p Hinit) as Hh.
  pose proof (g_field_bounds h off) as Hb.
  exists (g_field h off), t1, (t1 ++ [EvStack 128 false]). split.
  - rewrite (GetGoID_fast pr p off t1 Hoff), Hh, signed64_small by assumption.
    reflexivity.
  - unfold GetGoIDSlow. rewrite Hh, (getGoIDSlow_header h off t1 Hrt).
    destruct (utoa_digits (g_field h off)) as [Hds _].
    destruct (utoa_value (g_field h off) Hb) as [Hne Hval].
    rewrite ParseInt_digits by (try assumption; rewrite Hval; assumption).
    cbn [fst]. rewrite Hval. reflexivity.
Qed.

End Builds.

Lemma GetGoID_fast_load_witness :
  exists off,
    (forall t, GetGoID (FastField 152) {| host := sample_host "go1.25.3"; offset := 0 |} t
               = (Ok (signed64 (g_field (sample_host "go1.25.3") off)), t))
    /\ ((GOARCH (linux_arm64 25) = amd64
         /\ exists k, version_key (version (sample_host "go1.25.3")) = Ok k
                      /\ off = default 0 (offsetDict !! k))
        \/ (GOARCH (linux_arm64 25) = arm64 /\ GOOS (linux_arm64 25) <> windows
            /\ exists g, selected (linux_arm64 25) (g_files ++ []) = [g]
                         /\ offsetof g "goid" = Some off)).
Proof.
  refine (GetGoID_fast_load [] (linux_arm64 25) (FastField 152)
            (sample_host "go1.25.3")
            {| host := sample_host "go1.25.3"; offset := 0 |} [] [] _ _ _).
  - reflexivity.
  - discriminate.
  - reflexivity.
Defined.

(** C5, as stated, fails on arm64: with a Go 1.26 toolchain the build
    compiles the Go 1.25 declaration of [g] and reads byte 152, while the
    table has no entry for ["go1.26"] and resolves to zero. *)
Lemma GetGoID_arm64_not_table :
  compile [] (linux_arm64 26) = Some (FastField 152)
  /\ pkg_init (linux_arm64 26) (sample_host "go1.26.0") []
     = (Ok {| host := sample_host "go1.26.0"; offset := 0 |}, [])
  /\ version_key "go1.26.0" = Ok "go1.26"
  /\ offsetDict !! "go1.26" = None
  /\ GetGoID (FastField 152) {| host := sample_host "go1.26.0"; offset := 0 |} []
     = (Ok 1, [])
  /\ signed64 (g_field (sample_host "go1.26.0") (default 0 (offsetDict !! "go1.26")))
     = 824633720832.
Proof. repeat split; vm_compute; reflexivity. Qed.

Lemma GetGoID_agrees_with_slow_witness :
  exists v t2 t3,
    GetGoID FastAsm {| host := sample_host "go1.25.3"; offset := 152 |} [EvVersion]
    = (Ok v, t2)
    /\ GetGoIDSlow (host {| host := sample_host "go1.25.3"; offset := 152 |}) t2
       = (Ok v, t3).
Proof.
  refine (GetGoID_agrees_with_slow [] (linux_amd64 25) FastAsm
            (sample_host "go1.25.3")
            {| host := sample_host "go1.25.3"; offset := 152 |} 152
            [] [EvVersion] _ _ _ _ _).
  - reflexivity.
  - reflexivity.
  - reflexivity.
  - exists (bytes_of_string "running]:"). reflexivity.
  - reflexivity.
Defined.

(** C1 on amd64 with a runtime whose version is not in the table (Go 1.26
    here, identifier at byte 152 of [g]): [offset] is zero, the fast path
    returns the first word of [g] ([stack.lo]), the slow path returns the
    identifier, and the two differ. *)
Lemma GetGoID_differs_unlisted_version :
  compile [] (linux_amd64 26) = Some FastAsm
  /\ runtime_goid_at (sample_host "go1.26.0") 152
  /\ pkg_init (linux_amd64 26) (sample_host "go1.26.0") []
     = (Ok {| host := sample_host "go1.26.0"; offset := 0 |}, [EvVersion])
  /\ GetGoID FastAsm {| host := sample_host "go1.26.0"; offset := 0 |} [EvVersion]
     = (Ok 824633720832, [EvVersion])
  /\ GetGoIDSlow (sample_host "go1.26.0") [EvVersion]
     = (Ok 1, [EvVersion; EvStack 128 false]).
Proof.
  split; [reflexivity|]. split.
  - exists (bytes_of_string "running]:"). reflexivity.
  - repeat split; vm_compute; reflexivity.
Qed.

(** ** Repeated calls *)

(** When the fast path reads the word where the runtime keeps the
    identifier, or the slow path is linked, three calls of [GetGoID] in a
    row on one goroutine return the same value, whatever else the runtime
    changes in between. *)
Theorem GetGoID_stable_across_steps
    (pr : program) (o off : Z) (h1 h2 h3 : Host) (t : list event) :
  pr = Slow \/ fast_offset pr {| host := h1; offset := o |} = Some off ->
  same_goroutine off h1 h2 ->
  same_goroutine off h2 h3 ->
  exists v t1 t2 t3,
    GetGoID pr {| host := h1; offset := o |} t = (Ok v, t1)
    /\ GetGoID pr {| host := h2; offset := o |} t1 = (Ok v, t2)
    /\ GetGoID pr {| host := h3; offset := o |} t2 = (Ok v, t3).
Proof.
  intros Hpr (_ & _ & H12 & Hr1 & Hr2) (_ & _ & H23 & _ & Hr3).
  destruct pr as [|off'|].
  - destruct Hpr as [Hpr|Hpr]; [discriminate|].
    exists (signed64 (g_field h1 off)), t, t, t.
    split; [|split].
    + apply (GetGoID_fast FastAsm {| host := h1; offset := o |} off t). exact Hpr.
    + rewrite <- H12.
      apply (GetGoID_fast FastAsm {| host := h2; offset := o |} off t). exact Hpr.
    + rewrite <- H12, <- H23.
      apply (GetGoID_fast FastAsm {| host := h3; offset := o |} off t). exact Hpr.
  - destruct Hpr as [Hpr|Hpr]; [discriminate|].
    exists (signed64 (g_field h1 off)), t, t, t.
    split; [|split].
    + apply (GetGoID_fast (FastField off') {| host := h1; offset := o |} off t). exact Hpr.
    + rewrite <- H12.
      apply (GetGoID_fast (FastField off') {| host := h2; offset := o |} off t). exact Hpr.
    + rewrite <- H12, <- H23.
      apply (GetGoID_fast (FastField off') {| host := h3; offset := o |} off t). exact Hpr.
  - exists (fst (ParseInt (utoa (g_field h1 off)) 10 64)).
    exists (t ++ [EvStack 128 false]).
    exists ((t ++ [EvStack 128 false]) ++ [EvStack 128 false]).
    exists (((t ++ [EvStack 128 false]) ++ [EvStack 128 false])
              ++ [EvStack 128 false]).
    cbn [GetGoID host].
    rewrite (getGoIDSlow_header h1 off _ Hr1).
    rewrite (getGoIDSlow_header h2 off _ Hr2).
    rewrite (getGoIDSlow_header h3 off _ Hr3).
    rewrite H23, H12. repeat split.
Qed.

Lemma GetGoID_stable_across_steps_witness :
  exists v t1 t2 t3,
    GetGoID FastAsm {| host := sample_host "go1.25.3"; offset := 152 |} [EvVersion]
    = (Ok v, t1)
    /\ GetGoID FastAsm {| host := moved_host "go1.25.3"; offset := 152 |} t1
       = (Ok v, t2)
    /\ GetGoID FastAsm {| host := sample_host "go1.25.3"; offset := 152 |} t2
       = (Ok v, t3).
Proof.
  refine (GetGoID_stable_across_steps FastAsm 152 152
            (sample_host "go1.25.3") (moved_host "go1.25.3")
            (sample_host "go1.25.3") [EvVersion] _ _ _).
  - right. reflexivity.
  - repeat split; try reflexivity;
      exists (bytes_of_string "running]:"); reflexivity.
  - repeat split; try reflexivity;
      exists (bytes_of_string "running]:"); reflexivity.
Defined.

(** C9 on amd64 with a runtime whose version is not in the table (Go 1.26
    here): [offset] is zero and [GetGoID] returns [stack.lo]; when the
    runtime moves the goroutine's stack between two calls, the same
    goroutine, with the same identifier, gets two different values. *)
Lemma GetGoID_changes_when_stack_moves :
  same_goroutine 152 (sample_host "go1.26.0") (moved_host "go1.26.0")
  /\ pkg_init (linux_amd64 26) (sample_host "go1.26.0") []
     = (Ok {| host := sample_host "go1.26.0"; offset := 0 |}, [EvVersion])
  /\ GetGoID FastAsm {| host := sample_host "go1.26.0"; offset := 0 |} [EvVersion]
     = (Ok 824633720832, [EvVersion])
  /\ GetGoID FastAsm {| host := moved_host "go1.26.0"; offset := 0 |} [EvVersion]
     = (Ok 824634769408, [EvVersion])
  /\ GetGoIDSlow (sample_host "go1.26.0") [] = (Ok 1, [EvStack 128 false])
  /\ GetGoIDSlow (moved_host "go1.26.0") [] = (Ok 1, [EvStack 128 false]).
Proof.
  split.
  - repeat split; try reflexivity;
      exists (bytes_of_string "running]:"); reflexivity.
  - repeat split; vm_compute; reflexivity.
Qed.

(** ** The parser on arbitrary input *)

Lemma IndexByte_neg (s : list Z) (c : Z) : IndexByte s c < 0 <-> c ∉ s.
Proof.
  induction s as [|x s IH]; simpl.
  - split; [intros _; apply not_elem_of_nil|lia].
  - rewrite not_elem_of_cons.
    pose proof (IndexByte_bounds s c) as Hb.
    destruct (x =? c) eqn:E.
    + apply Z.eqb_eq in E. split; [lia|]. intros [Hne _]. congruence.
    + apply Z.eqb_neq in E.
      destruct (IndexByte s c <? 0) eqn:E'.
      * apply Z.ltb_lt in E'. split; [|lia].
        intros _. split; [congruence|]. apply IH. exact E'.
      * apply Z.ltb_ge in E'. split; [lia|].
        intros [_ Hn]. apply IH in Hn. lia.
Qed.

Lemma extractGID_prefix (p rest : list Z) :
  length p = 10%nat -> extractGID (p ++ rest) = extractGID (label ++ rest).
Proof.
  intros Hp. unfold extractGID.
  rewrite (slice_from_app label rest).
  replace (len label) with (len p) by (unfold len; rewrite Hp; reflexivity).
  rewrite (slice_from_app p rest). reflexivity.
Qed.

(** [extractGID] panics exactly on the inputs that are shorter than the
    ten bytes it skips, or hold no space after them; on every other input
    it returns a value. *)
Theorem extractGID_panics_iff (s : list Z) :
  extractGID s = Panic <-> (length s < 10)%nat \/ 32 ∉ drop 10 s.
Proof.
  unfold extractGID, slice_from. change (len label) with 10.
  destruct ((0 <=? 10) && (10 <=? len s)) eqn:E.
  - apply andb_prop in E as [_ E]. apply Z.leb_le in E. unfold len in E.
    cbn [mbind result_bind]. change (Z.to_nat 10) with 10%nat.
    rewrite <- IndexByte_neg.
    pose proof (IndexByte_bounds (drop 10 s) 32) as Hb.
    unfold slice_to.
    destruct (0 <=? IndexByte (drop 10 s) 32) eqn:E0.
    + apply Z.leb_le in E0.
      replace (IndexByte (drop 10 s) 32 <=? len (drop 10 s)) with true
        by (symmetry; apply Z.leb_le; lia).
      cbn [andb mbind result_bind].
      destruct (ParseInt _ 10 64) as [gid err].
      split; [discriminate|]. intros [H|H]; lia.
    + apply Z.leb_gt in E0. cbn [andb mbind result_bind].
      split; [intros _; right; exact E0|reflexivity].
  - cbn [mbind result_bind]. split; [|reflexivity]. intros _. left.
    apply andb_false_iff in E as [E|E]; [discriminate|].
    apply Z.leb_gt in E. unfold len in E. lia.
Qed.

(** [extractGID] never looks at the ten bytes it skips: two inputs that
    differ only there give the same result. *)
Theorem extractGID_ignores_label (p p' rest : list Z) :
  length p = 10%nat -> length p' = 10%nat ->
  extractGID (p ++ rest) = extractGID (p' ++ rest).
Proof.
  intros Hp Hp'. rewrite (extractGID_prefix p), (extractGID_prefix p') by assumption.
  reflexivity.
Qed.

Lemma extractGID_ignores_label_witness :
  extractGID (bytes_of_string "0123456789" ++ bytes_of_string "42 x")
  = extractGID (bytes_of_string "goroutine " ++ bytes_of_string "42 x").
Proof.
  exact (extractGID_ignores_label (bytes_of_string "0123456789")
           (bytes_of_string "goroutine ") (bytes_of_string "42 x")
           eq_refl eq_refl).
Defined.

(** ** The slow path on whole snapshots *)

Lemma take_header (ds tail : list Z) :
  (length ds <= 20)%nat ->
  take 128 (label ++ ds ++ 32 :: tail)
  = label ++ ds ++ 32 :: take (117 - length ds) tail.
Proof.
  intros Hl. rewrite take_app. change (length label) with 10%nat.
  rewrite (take_ge label) by (change (length label) with 10%nat; lia).
  f_equal. rewrite take_app, (take_ge ds) by lia. f_equal.
  replace (128 - 10 - length ds)%nat with (S (117 - length ds)) by lia.
  reflexivity.
Qed.

(** Printing and parsing: when the snapshot starts with the label, the
    decimal digits of an unsigned 64-bit [n] as the runtime prints them,
    and a space, the slow path returns [n], or the largest [int64] when
    [n] is beyond it, however long the rest of the snapshot is. *)
Theorem getGoIDSlow_roundtrip
    (h : Host) (n : Z) (tail : list Z) (t : list event) :
  0 <= n < 2 ^ 64 ->
  stack_text h false = label ++ utoa n ++ 32 :: tail ->
  getGoIDSlow h t = (Ok (Z.min n (2 ^ 63 - 1)), t ++ [EvStack 128 false]).
Proof.
  intros Hn Htext. rewrite getGoIDSlow_run, Htext. f_equal.
  destruct (utoa_digits n) as [Hds Hl].
  destruct (utoa_value n Hn) as [Hne Hval].
  rewrite take_header by assumption.
  rewrite extractGID_delimited by (apply digits_not_space; assumption).
  rewrite ParseInt_digits_capped, Hval by assumption. reflexivity.
Qed.

Lemma getGoIDSlow_roundtrip_witness :
  getGoIDSlow (sample_host "go1.25.3") []
  = (Ok (Z.min 1 (2 ^ 63 - 1)), [] ++ [EvStack 128 false]).
Proof.
  exact (getGoIDSlow_roundtrip (sample_host "go1.25.3") 1
           (bytes_of_string "[running]:") []
           (conj (Z.le_0_1) eq_refl) eq_refl).
Defined.

(** The slow path panics exactly when the snapshot is shorter than ten
    bytes or has no space among its bytes 10 to 127: a delimiter beyond
    the 128-byte buffer is cut off before the parser runs. *)
Theorem getGoIDSlow_panics_iff (h : Host) (t : list event) :
  fst (getGoIDSlow h t) = Panic
  <-> (length (stack_text h false) < 10)%nat
      \/ 32 ∉ take 118 (drop 10 (stack_text h false)).
Proof.
  rewrite getGoIDSlow_run. cbn [fst].
  rewrite extractGID_panics_iff, length_take.
  rewrite (take_drop_commute (stack_text h false) 118 10).
  change (10 + 118)%nat with 128%nat.
  split; (intros [H|H]; [left; lia|right; exact H]).
Qed.

(** ** The offset table, entry by entry *)

Lemma offsetDict_listed (k : string) (v : Z) :
  offsetDict !! k = Some v ->
  (k, v) ∈ [ ("go1.4", 128); ("go1.5", 184); ("go1.6", 192); ("go1.7", 192);
             ("go1.8", 192); ("go1.9", 152); ("go1.10", 152); ("go1.11", 152);
             ("go1.12", 152); ("go1.13", 152); ("go1.14", 152); ("go1.15", 152);
             ("go1.16", 152); ("go1.17", 152); ("go1.18", 152); ("go1.19", 152);
             ("go1.20", 152); ("go1.21", 152); ("go1.22", 152); ("go1.23", 160);
             ("go1.24", 160); ("go1.25", 152) ].
Proof. unfold offsetDict. apply elem_of_list_to_map_2. Qed.

(** Splits a membership in a literal list into one goal per element. *)
Ltac listed_cases H :=
  repeat (apply elem_of_cons in H as [H|H]);
  [..|apply elem_of_nil in H; destruct H].

Lemma offsetDict_values (k : string) (v : Z) :
  offsetDict !! k = Some v -> v ∈ offsets_in_use /\ 128 <= v <= 192 /\ v mod 8 = 0.
Proof.
  intros H. apply offsetDict_listed in H. listed_cases H;
    injection H as -> ->;
    (split; [unfold offsets_in_use; set_solver|split; [lia|reflexivity]]).
Qed.

(** Whatever version the runtime reports, the offset the package holds
    after initialisation is zero or one of the five values of the table:
    a multiple of eight between 0 and 192, so the fast path never loads
    beyond the first 200 bytes of [g]. *)
Theorem offset_in_use
    (b : Build) (h : Host) (p : Process) (t t' : list event) :
  pkg_init b h t = (Ok p, t') ->
  offset p ∈ offsets_in_use /\ 0 <= offset p <= 192 /\ offset p mod 8 = 0.
Proof.
  assert (H0 : 0 ∈ offsets_in_use /\ 0 <= 0 <= 192 /\ 0 mod 8 = 0)
    by (split; [unfold offsets_in_use; set_solver|split; [lia|reflexivity]]).
  destruct (decide (GOARCH b = amd64)) as [Hb|Hb].
  - rewrite pkg_init_amd64 by assumption.
    destruct (version_key (version h)) as [k|];
      cbn [mbind result_bind mret result_ret]; [|intros [=]].
    destruct (offsetDict !! k) as [v|] eqn:E; cbn [default from_option id].
    + intros [= <- _]. cbn [offset].
      destruct (offsetDict_values k v E) as (H1 & H2 & H3).
      split; [assumption|]. split; [lia|assumption].
    + intros [= <- _]. exact H0.
  - rewrite pkg_init_other by assumption. intros [= <- _]. exact H0.
Qed.

Lemma offset_in_use_witness :
  offset {| host := sample_host "go1.23.1"; offset := 160 |} ∈ offsets_in_use
  /\ 0 <= offset {| host := sample_host "go1.23.1"; offset := 160 |} <= 192
  /\ offset {| host := sample_host "go1.23.1"; offset := 160 |} mod 8 = 0.
Proof.
  exact (offset_in_use (linux_amd64 23) (sample_host "go1.23.1")
           {| host := sample_host "go1.23.1"; offset := 160 |} [] [EvVersion]
           eq_refl).
Defined.

Lemma listed_key_patch (k : string) (v : Z) :
  offsetDict !! k = Some v ->
  version_key k = Ok k /\ forall rest, version_key (k +:+ "." +:+ rest) = Ok k.
Proof.
  intros H. apply offsetDict_listed in H. listed_cases H;
    injection H as -> ->;
    (split; [reflexivity|]; intros rest;
     rewrite version_key_dot by reflexivity; reflexivity).
Qed.

(** A listed release and all its patch releases resolve to the listed
    offset: the version string may be the key itself or the key followed
    by a dot and anything. *)
Theorem offset_patch_release
    (b : Build) (h : Host) (k rest : string) (v : Z) (t : list event) :
  GOARCH b = amd64 ->
  offsetDict !! k = Some v ->
  version h = k \/ version h = k +:+ "." +:+ rest ->
  pkg_init b h t = (Ok {| host := h; offset := v |}, t ++ [EvVersion]).
Proof.
  intros Hb Hk Hv.
  destruct (listed_key_patch k v Hk) as [H1 H2].
  assert (Hkey : version_key (version h) = Ok k)
    by (destruct Hv as [-> | ->]; [exact H1|apply H2]).
  rewrite pkg_init_amd64 by assumption. rewrite Hkey.
  cbn [mbind result_bind mret result_ret]. rewrite Hk. reflexivity.
Qed.

Lemma offset_patch_release_witness :
  pkg_init (linux_amd64 21) (sample_host "go1.21.13") []
  = (Ok {| host := sample_host "go1.21.13"; offset := 152 |}, [] ++ [EvVersion]).
Proof.
  exact (offset_patch_release (linux_amd64 21) (sample_host "go1.21.13")
           "go1.21" "13" 152 [] eq_refl eq_refl (or_intror eq_refl)).
Defined.

Lemma truncate_dots_nodot (s : string) (n : nat) :
  has_dot s = false -> truncate_dots n s = s.
Proof.
  induction s as [|c s IH]; [reflexivity|].
  rewrite has_dot_cons. cbn [truncate_dots].
  destruct (Ascii.eqb c "."); [discriminate|].
  cbn [orb]. intros Hs. rewrite IH by assumption. reflexivity.
Qed.

Lemma listed_key_suffix (k s : string) (v : Z) :
  offsetDict !! k = Some v -> s <> EmptyString -> has_dot s = false ->
  version_key (k +:+ s) = Ok (k +:+ s) /\ offsetDict !! (k +:+ s) = None.
Proof.
  intros H Hs Hd. apply offsetDict_listed in H. split.
  - listed_cases H; injection H as -> ->;
      (rewrite version_key_dot by reflexivity;
       unfold major_minor; cbv [String.append];
       cbn [truncate_dots Ascii.eqb Bool.eqb];
       rewrite (truncate_dots_nodot s 1 Hd); reflexivity).
  - destruct (offsetDict !! (k +:+ s)) as [v'|] eqn:E; [|reflexivity].
    exfalso. apply offsetDict_listed in E.
    listed_cases H; injection H as -> ->;
      cbv [String.append] in E;
      listed_cases E; injection E as E _; congruence.
Qed.

(** The lookup is by exact key: a listed release followed, before any
    dot, by more text (a release candidate or beta such as
    ["go1.25rc1"]) has a key of its own, which the table does not hold,
    and resolves to offset zero. *)
Theorem offset_prerelease_zero
    (b : Build) (h : Host) (k s : string) (v : Z) (t : list event) :
  GOARCH b = amd64 ->
  offsetDict !! k = Some v ->
  s <> EmptyString -> has_dot s = false ->
  version h = k +:+ s ->
  pkg_init b h t = (Ok {| host := h; offset := 0 |}, t ++ [EvVersion]).
Proof.
  intros Hb Hk Hs Hd Hv.
  destruct (listed_key_suffix k s v Hk Hs Hd) as [H1 H2].
  rewrite pkg_init_amd64 by assumption. rewrite Hv, H1.
  cbn [mbind result_bind mret result_ret]. rewrite H2. reflexivity.
Qed.

Lemma offset_prerelease_zero_witness :
  pkg_init (linux_amd64 25) (sample_host "go1.25rc1") []
  = (Ok {| host := sample_host "go1.25rc1"; offset := 0 |}, [] ++ [EvVersion]).
Proof.
  refine (offset_prerelease_zero (linux_amd64 25) (sample_host "go1.25rc1")
            "go1.25" "rc1" 152 [] eq_refl eq_refl _ eq_refl eq_refl).
  discriminate.
Defined.

(** ** The declarations of [g] across builds *)

Lemma release_key_inj (n m : nat) : release_key n = release_key m -> n = m.
Proof.
  unfold release_key. cbv [String.append]. intros [= H].
  apply (inj pretty) in H. exact H.
Qed.

(** No build compiles two of the four declarations of [g]: their build
    constraints exclude one another for every target, compiler and
    release. *)
Theorem g_declared_at_most_once (b : Build) :
  (length (selected b g_files_all) <= 1)%nat.
Proof.
  destruct b as [os arch c n].
  unfold selected, g_files_all, g_files, g_file_go1_5.
  cbn [app List.filter fst snd sat tag_sat GOOS GOARCH compiler go_minor].
  destruct (bool_decide (arch = arm64)); rewrite ?andb_false_r; [|simpl; lia].
  destruct c;
    [rewrite (bool_decide_eq_true_2 (gc = gc)) by reflexivity;
     rewrite (bool_decide_eq_false_2 (gc = gccgo)) by discriminate
    |rewrite (bool_decide_eq_false_2 (gccgo = gc)) by discriminate;
     rewrite (bool_decide_eq_true_2 (gccgo = gccgo)) by reflexivity];
    cbn [negb andb];
    destruct (Nat.leb_spec 25 n), (Nat.leb_spec 6 n), (Nat.leb_spec 9 n),
             (Nat.leb_spec 8 n), (Nat.leb_spec 5 n);
    cbn [negb andb fmap list_fmap length]; lia.
Qed.

(** Identifies the release a key stands for. *)
Ltac key_is Hn k :=
  let H := fresh in
  let key := eval vm_compute in (release_key k) in
  assert (H : release_key k = key) by (vm_compute; reflexivity);
  rewrite <- H in Hn; clear H; apply release_key_inj in Hn.

(** Where an arm64 build with the gc compiler links the field read and
    the offset table lists the release of the toolchain, the offset of
    [goid] in the declaration compiled is the entry of the table: the two
    fast paths read the same field (184 for Go 1.5, 192 for Go 1.6 to 1.8,
    152 for Go 1.25). *)
Theorem struct_offset_matches_table (os : OS) (n : nat) (off e : Z) :
  compile [g_file_go1_5]
    {| GOOS := os; GOARCH := arm64; compiler := gc; go_minor := n |}
  = Some (FastField off) ->
  offsetDict !! release_key n = Some e ->
  e = off.
Proof.
  intros Hc He. apply offsetDict_listed in He.
  listed_cases He; apply pair_equal_spec in He as [Hn ->];
    first
      [ key_is Hn 4%nat | key_is Hn 5%nat | key_is Hn 6%nat
      | key_is Hn 7%nat | key_is Hn 8%nat | key_is Hn 9%nat
      | key_is Hn 10%nat | key_is Hn 11%nat | key_is Hn 12%nat
      | key_is Hn 13%nat | key_is Hn 14%nat | key_is Hn 15%nat
      | key_is Hn 16%nat | key_is Hn 17%nat | key_is Hn 18%nat
      | key_is Hn 19%nat | key_is Hn 20%nat | key_is Hn 21%nat
      | key_is Hn 22%nat | key_is Hn 23%nat | key_is Hn 24%nat
      | key_is Hn 25%nat ];
    subst n; destruct os; vm_compute in Hc;
    first [discriminate Hc | injection Hc as <-; reflexivity].
Qed.

Lemma struct_offset_matches_table_witness : 192 = 192.
Proof.
  exact (struct_offset_matches_table darwin 7 192 192 eq_refl eq_refl).
Defined.

(** ** Package [log]: level names and the logrus adapter *)

(** [ParseLevel] succeeds exactly on the names [String] gives the five
    levels and returns the level named; composed after [String] it gives
    the level back for the five levels and, for any other value, the info
    level with the error for the name ["unknown"]. *)
Theorem ParseLevel_String :
  (forall s l,
     Log.ParseLevel s = (l, None) <-> Log.String l = s /\ 0 <= l <= 4)
  /\ (forall l,
        Log.ParseLevel (Log.String l)
        = if (0 <=? l) && (l <=? 4) then (l, None)
          else (Log.InfoLevel, Some "unknown level: unknown")).
Proof.
  assert (Hcomp : forall l,
             Log.ParseLevel (Log.String l)
             = if (0 <=? l) && (l <=? 4) then (l, None)
               else (Log.InfoLevel, Some "unknown level: unknown")).
  { intros l. unfold Log.String, Log.DebugLevel, Log.InfoLevel, Log.WarnLevel,
      Log.ErrorLevel, Log.FatalLevel.
    destruct (l =? 0) eqn:E0; [apply Z.eqb_eq in E0; subst; reflexivity|].
    destruct (l =? 1) eqn:E1; [apply Z.eqb_eq in E1; subst; reflexivity|].
    destruct (l =? 2) eqn:E2; [apply Z.eqb_eq in E2; subst; reflexivity|].
    destruct (l =? 3) eqn:E3; [apply Z.eqb_eq in E3; subst; reflexivity|].
    destruct (l =? 4) eqn:E4; [apply Z.eqb_eq in E4; subst; reflexivity|].
    apply Z.eqb_neq in E0, E1, E2, E3, E4.
    replace ((0 <=? l) && (l <=? 4)) with false; [reflexivity|].
    symmetry. apply andb_false_iff.
    destruct (Z_lt_le_dec l 0); [left; apply Z.leb_gt; lia|].
    right. apply Z.leb_gt. lia. }
  split; [|exact Hcomp].
  intros s l. split.
  - unfold Log.ParseLevel.
    destruct (String.eqb s "debug") eqn:Ed;
      [apply String.eqb_eq in Ed; subst; intros [= <-]; split; [reflexivity|
         unfold Log.DebugLevel; lia]|].
    destruct (String.eqb s "info") eqn:Ei;
      [apply String.eqb_eq in Ei; subst; intros [= <-]; split; [reflexivity|
         unfold Log.InfoLevel; lia]|].
    destruct (String.eqb s "warn") eqn:Ew;
      [apply String.eqb_eq in Ew; subst; intros [= <-]; split; [reflexivity|
         unfold Log.WarnLevel; lia]|].
    destruct (String.eqb s "error") eqn:Ee;
      [apply String.eqb_eq in Ee; subst; intros [= <-]; split; [reflexivity|
         unfold Log.ErrorLevel; lia]|].
    destruct (String.eqb s "fatal") eqn:Ef;
      [apply String.eqb_eq in Ef; subst; intros [= <-]; split; [reflexivity|
         unfold Log.FatalLevel; lia]|].
    intros [=].
  - intros [<- Hl]. rewrite Hcomp.
    replace ((0 <=? l) && (l <=? 4)) with true; [reflexivity|].
    symmetry. apply andb_true_intro. split; apply Z.leb_le; lia.
Qed.

Lemma GetLevel_loop_found
    (order : list (Z * Log.logrus_Level)) (l : Z) (ll : Log.logrus_Level) :
  (l, ll) ∈ order ->
  (forall l', (l', ll) ∈ order -> l' = l) ->
  Log.GetLevel_loop order ll = l.
Proof.
  induction order as [|[a b] order IH]; intros Hin Huniq.
  - apply elem_of_nil in Hin. destruct Hin.
  - cbn [Log.GetLevel_loop]. destruct (decide (b = ll)) as [->|Hne].
    + rewrite bool_decide_eq_true_2 by reflexivity.
      apply Huniq. apply list_elem_of_here.
    + rewrite bool_decide_eq_false_2 by assumption.
      apply IH.
      * apply elem_of_cons in Hin as [Hin|Hin]; [congruence|exact Hin].
      * intros l' Hl'. apply Huniq. apply list_elem_of_further. exact Hl'.
Qed.

Lemma GetLevel_loop_absent
    (order : list (Z * Log.logrus_Level)) (ll : Log.logrus_Level) :
  (forall l, (l, ll) ∉ order) -> Log.GetLevel_loop order ll = Log.InfoLevel.
Proof.
  induction order as [|[a b] order IH]; intros Habs; [reflexivity|].
  cbn [Log.GetLevel_loop]. destruct (decide (b = ll)) as [->|Hne].
  - exfalso. apply (Habs a). apply list_elem_of_here.
  - rewrite bool_decide_eq_false_2 by assumption.
    apply IH. intros l Hl. apply (Habs l). apply list_elem_of_further. exact Hl.
Qed.

Lemma logrusLevelMap_listed (l : Z) (ll : Log.logrus_Level) :
  Log.logrusLevelMap !! l = Some ll ->
  (l, ll) ∈ [ (0, Log.logrus_DebugLevel); (1, Log.logrus_InfoLevel);
              (2, Log.logrus_WarnLevel); (3, Log.logrus_ErrorLevel);
              (4, Log.logrus_FatalLevel) ].
Proof. unfold Log.logrusLevelMap. apply elem_of_list_to_map_2. Qed.

(** The logrus adapter, in whatever order the map is visited: setting one
    of the five levels and reading the level back gives that level;
    setting any other value leaves the logger as it was; and a logger left
    at the panic or trace level of logrus, which the map does not hold,
    reads as the info level. *)
Theorem logrus_level_roundtrip
    (order : list (Z * Log.logrus_Level)) (level : Z)
    (current : Log.logrus_Level) :
  order ≡ₚ map_to_list Log.logrusLevelMap ->
  (0 <= level <= 4 ->
   Log.GetLevel order (Log.SetLevel level current) = level)
  /\ (~ 0 <= level <= 4 -> Log.SetLevel level current = current)
  /\ Log.GetLevel order Log.logrus_PanicLevel = Log.InfoLevel
  /\ Log.GetLevel order Log.logrus_TraceLevel = Log.InfoLevel.
Proof.
  intros Hperm.
  assert (Hin : forall l ll,
             (l, ll) ∈ order <-> Log.logrusLevelMap !! l = Some ll).
  { intros l ll. rewrite Hperm. apply elem_of_map_to_list. }
  assert (Hget : forall l ll,
             Log.logrusLevelMap !! l = Some ll -> Log.GetLevel order ll = l).
  { intros l ll Hl. apply GetLevel_loop_found; [apply Hin; exact Hl|].
    intros l' Hl'. apply Hin in Hl'.
    apply logrusLevelMap_listed in Hl, Hl'.
    listed_cases Hl; injection Hl as -> ->;
      listed_cases Hl'; injection Hl' as Hl'; congruence. }
  assert (Habs : forall ll,
             (forall l, Log.logrusLevelMap !! l <> Some ll) ->
             Log.GetLevel order ll = Log.InfoLevel).
  { intros ll Hll. apply GetLevel_loop_absent. intros l Hl.
    apply Hin in Hl. exact (Hll l Hl). }
  split; [|split; [|split]].
  - intros Hl. unfold Log.SetLevel.
    assert (Hc : level = 0 \/ level = 1 \/ level = 2 \/ level = 3 \/ level = 4)
      by lia.
    destruct Hc as [->|[->|[->|[->| ->]]]];
      apply Hget; reflexivity.
  - intros Hl. unfold Log.SetLevel.
    destruct (Log.logrusLevelMap !! level) as [ll|] eqn:E; [|reflexivity].
    exfalso. apply logrusLevelMap_listed in E.
    listed_cases E; injection E as -> _; lia.
  - apply Habs. intros l Hl. apply logrusLevelMap_listed in Hl.
    listed_cases Hl; discriminate Hl.
  - apply Habs. intros l Hl. apply logrusLevelMap_listed in Hl.
    listed_cases Hl; discriminate Hl.
Qed.

Lemma logrus_level_roundtrip_witness :
  (0 <= 3 <= 4 ->
   Log.GetLevel (reverse (map_to_list Log.logrusLevelMap))
     (Log.SetLevel 3 Log.logrus_InfoLevel) = 3)
  /\ (~ 0 <= 3 <= 4 -> Log.SetLevel 3 Log.logrus_InfoLevel = Log.logrus_InfoLevel)
  /\ Log.GetLevel (reverse (map_to_list Log.logrusLevelMap)) Log.logrus_PanicLevel
     = Log.InfoLevel
  /\ Log.GetLevel (reverse (map_to_list Log.logrusLevelMap)) Log.logrus_TraceLevel
     = Log.InfoLevel.
Proof.
  refine (logrus_level_roundtrip (reverse (map_to_list Log.logrusLevelMap)) 3
            Log.logrus_InfoLevel _).
  apply reverse_Permutation.
Defined.

(** ** The arm64 field read, release by release *)

Lemma selected_g_arm64_gc (os : OS) (n : nat) :
  selected {| GOOS := os; GOARCH := arm64; compiler := gc; go_minor := n |}
    (g_files ++ [g_file_go1_5])
  = if (25 <=? n)%nat then [g_go1_25]
    else if (6 <=? n)%nat && (n <=? 8)%nat then [g_go1_6]
    else if (n =? 5)%nat then [g_go1_5]
    else [].
Proof.
  unfold selected, g_files, g_file_go1_5.
  cbn [app List.filter fst snd sat tag_sat GOOS GOARCH compiler go_minor].
  rewrite (bool_decide_eq_true_2 (arm64 = arm64)) by reflexivity.
  rewrite (bool_decide_eq_true_2 (gc = gc)) by reflexivity.
  rewrite (bool_decide_eq_false_2 (gc = gccgo)) by discriminate.
  cbn [negb andb].
  destruct (Nat.leb_spec 25 n), (Nat.leb_spec 6 n), (Nat.leb_spec 9 n),
           (Nat.leb_spec 8 n), (Nat.leb_spec 5 n), (Nat.leb_spec n 8),
           (Nat.eqb_spec n 5);
    cbn [negb andb fmap list_fmap]; try reflexivity; lia.
Qed.

(** With the four declarations of [g], an arm64 build off Windows with the
    gc compiler reads [goid] at byte 184 for Go 1.5, 192 for Go 1.6 to
    1.8 and 152 from Go 1.25 on, every later release included; for the
    other releases none of the four declarations is compiled and
    [getg().goid] has no [g] to refer to. *)
Theorem arm64_offset_by_release (os : OS) (n : nat) :
  os <> windows ->
  compile [g_file_go1_5]
    {| GOOS := os; GOARCH := arm64; compiler := gc; go_minor := n |}
  = if (25 <=? n)%nat then Some (FastField 152)
    else if (6 <=? n)%nat && (n <=? 8)%nat then Some (FastField 192)
    else if (n =? 5)%nat then Some (FastField 184)
    else None.
Proof.
  intros Hos. unfold compile.
  rewrite selected_GetGoID, selected_g_arm64_gc.
  cbn [GOOS GOARCH GetGoID_body_for].
  assert (Hb : match os with windows => BodySlow | _ => BodyField end = BodyField)
    by (destruct os; try reflexivity; congruence).
  rewrite Hb.
  destruct (25 <=? n)%nat; [reflexivity|].
  destruct ((6 <=? n)%nat && (n <=? 8)%nat); [reflexivity|].
  destruct (n =? 5)%nat; reflexivity.
Qed.

Lemma arm64_offset_by_release_witness :
  compile [g_file_go1_5]
    {| GOOS := darwin; GOARCH := arm64; compiler := gc; go_minor := 30 |}
  = Some (FastField 152).
Proof.
  refine (arm64_offset_by_release darwin 30 _). discriminate.
Defined.
